(** * Dataset adapters of [data/voc0712.py]: a shallow embedding

    The module under study holds three dataset classes ([VOCDetection],
    [ImgDataset], [LPDataset]) and the annotation transform
    [VOCAnnotationTransform].  Every method is rendered as a function in an
    exception monad; the outside world (files, decoded images, parsed XML
    documents, the augmentation callable, the random permutation) is passed
    in explicitly.

    Numbers.  Python's [/] on two ints is true division.  Its value is
    represented by the exact rational quotient, kept in lowest terms so that
    Leibniz equality on results coincides with numeric equality; the machine
    float is the rounding of that rational and is not modelled further. *)

From Stdlib Require Import ZArith QArith String Ascii List Lia Permutation.
From stdpp Require Import gmap strings.
Import ListNotations.

Local Open Scope string_scope.
Local Open Scope list_scope.
Local Open Scope Z_scope.

(** ** The fragment of the Python runtime the module relies on *)

Module Py.

(** Built-in exceptions that the modelled statements can raise. *)
Inductive exn : Set :=
| AttributeError
| TypeError
| ValueError
| KeyError
| IndexError
| ZeroDivisionError
| FileNotFoundError
| UnboundLocalError.

Inductive result (A : Type) : Type :=
| Ok (a : A)
| Raise (e : exn).
Arguments Ok {A} a.
Arguments Raise {A} e.

Definition bind {A B} (c : result A) (k : A -> result B) : result B :=
  match c with
  | Ok a => k a
  | Raise e => Raise e
  end.

Definition is_ok {A} (c : result A) : bool :=
  match c with Ok _ => true | Raise _ => false end.

(** [[f(x) for x in l]], evaluated left to right. *)
Fixpoint mapM {A B} (f : A -> result B) (l : list A) : result (list B) :=
  match l with
  | [] => Ok []
  | x :: r =>
      bind (f x) (fun y => bind (mapM f r) (fun ys => Ok (y :: ys)))
  end.

(** Reading a local name that may not have been assigned yet. *)
Definition local {A} (v : option A) : result A :=
  match v with
  | Some a => Ok a
  | None => Raise UnboundLocalError
  end.

(** *** Values that end up in a target row *)

Inductive num : Type :=
| PyInt (z : Z)
| PyFloat (q : Q).

(** [a / b] on ints. *)
Definition truediv (a b : Z) : result num :=
  if b =? 0 then Raise ZeroDivisionError
  else Ok (PyFloat (Qred (inject_Z a / inject_Z b))).

(** The numeric value of a [num], as numpy sees it when it builds a float
    array. *)
Definition to_Q (v : num) : Q :=
  match v with
  | PyInt z => inject_Z z
  | PyFloat q => q
  end.

(** *** Sequences *)

(** [l[i]] with Python's negative indices. *)
Definition getitem {A} (l : list A) (i : Z) : result A :=
  let n := Z.of_nat (List.length l) in
  let j := if i <? 0 then i + n else i in
  if (j <? 0) || (n <=? j) then Raise IndexError
  else match nth_error l (Z.to_nat j) with
       | Some x => Ok x
       | None => Raise IndexError
       end.

(** [l[lo:hi]] and [l[lo:]] for literal non-negative bounds. *)
Definition slice {A} (lo hi : nat) (l : list A) : list A :=
  firstn (hi - lo) (skipn lo l).

Definition slice_from {A} (lo : nat) (l : list A) : list A := skipn lo l.

(** *** Strings (byte strings; the ASCII part of [str]) *)

(** ASCII code points for which [str.isspace] holds. *)
Definition isspace (c : ascii) : bool :=
  let n := nat_of_ascii c in
  ((9 <=? n) && (n <=? 13) || (28 <=? n) && (n <=? 32))%nat.

Fixpoint lstrip (s : string) : string :=
  match s with
  | EmptyString => EmptyString
  | String c r => if isspace c then lstrip r else s
  end.

Fixpoint rstrip (s : string) : string :=
  match s with
  | EmptyString => EmptyString
  | String c r =>
      match rstrip r with
      | EmptyString => if isspace c then EmptyString else String c EmptyString
      | r' => String c r'
      end
  end.

Definition strip (s : string) : string := lstrip (rstrip s).

Definition lower_char (c : ascii) : ascii :=
  let n := nat_of_ascii c in
  if ((65 <=? n) && (n <=? 90))%nat then ascii_of_nat (n + 32) else c.

Fixpoint lower (s : string) : string :=
  match s with
  | EmptyString => EmptyString
  | String c r => String (lower_char c) (lower r)
  end.

(** [s.split(sep)] for a one-character separator. *)
Fixpoint split (sep : ascii) (s : string) : list string :=
  match s with
  | EmptyString => [EmptyString]
  | String c r =>
      if Ascii.eqb c sep then EmptyString :: split sep r
      else match split sep r with
           | f :: fs => String c f :: fs
           | [] => [String c EmptyString]
           end
  end.

(** [''.join(l)]. *)
Definition join (l : list string) : string :=
  fold_right String.append EmptyString l.

Definition startswith (c : ascii) (s : string) : bool :=
  match s with
  | String d _ => Ascii.eqb c d
  | EmptyString => false
  end.

Fixpoint endswith (c : ascii) (s : string) : bool :=
  match s with
  | EmptyString => false
  | String d EmptyString => Ascii.eqb c d
  | String _ r => endswith c r
  end.

(** *** [int(s)] on a string, base ten

    Surrounding whitespace is dropped, one sign is allowed, single
    underscores may separate digits. *)

Definition digit_of (c : ascii) : option Z :=
  let n := nat_of_ascii c in
  if ((48 <=? n) && (n <=? 57))%nat then Some (Z.of_nat (n - 48)) else None.

Fixpoint digits (acc : Z) (after_digit : bool) (s : string) : option Z :=
  match s with
  | EmptyString => if after_digit then Some acc else None
  | String c r =>
      match digit_of c with
      | Some d => digits (10 * acc + d) true r
      | None =>
          if Ascii.eqb c "_" && after_digit then digits acc false r
          else None
      end
  end.

Definition int_of_string (s : string) : result Z :=
  let body :=
    match strip s with
    | String "-" r => option_map Z.opp (digits 0 false r)
    | String "+" r => digits 0 false r
    | t => digits 0 false t
    end in
  match body with
  | Some z => Ok z
  | None => Raise ValueError
  end.

(** [int(x)] where [x] is an element's [.text], which is [None] for an
    element without character data. *)
Definition int_of_text (t : option string) : result Z :=
  match t with
  | Some s => int_of_string s
  | None => Raise TypeError
  end.

(** *** [os.path.join] (posixpath) *)

Definition join2 (path b : string) : string :=
  if startswith "/" b then b
  else if (String.length path =? 0)%nat || endswith "/" path then path +:+ b
  else path +:+ "/" +:+ b.

Definition osp_join (a : string) (p : list string) : string :=
  fold_left join2 p a.

End Py.

Import Py.

Notation "x <- c ;; k" := (Py.bind c (fun x => k))
  (at level 100, c at next level, right associativity).

(** ** [xml.etree.ElementTree] elements *)

Module ET.

#[local] Set Warnings "-register-all".

Inductive Element : Type :=
| Elem (tag : string) (text : option string) (children : list Element).

Definition tag (e : Element) : string :=
  match e with Elem t _ _ => t end.

Definition text (e : Element) : option string :=
  match e with Elem _ x _ => x end.

Definition children (e : Element) : list Element :=
  match e with Elem _ _ cs => cs end.

(** [e.iter(tg)]: the element itself and everything below it, in document
    order, restricted to the elements whose tag is [tg]. *)
Fixpoint iter (tg : string) (e : Element) : list Element :=
  match e with
  | Elem t _ cs =>
      (if String.eqb t tg then [e] else []) ++ flat_map (iter tg) cs
  end.

(** [e.find(tg)]: the first direct child whose tag is [tg], or [None]. *)
Definition find (tg : string) (e : Element) : option Element :=
  List.find (fun c => String.eqb (tag c) tg) (children e).

(** [e.find(tg).text]: attribute access on [None] fails. *)
Definition find_text (tg : string) (e : Element) : result (option string) :=
  match find tg e with
  | Some c => Ok (text c)
  | None => Raise AttributeError
  end.

End ET.

Import ET.

(** ** [VOC_CLASSES] and [VOCAnnotationTransform] *)

Definition VOC_CLASSES : list string :=
  [ "aeroplane"; "bicycle"; "bird"; "boat";
    "bottle"; "bus"; "car"; "cat"; "chair";
    "cow"; "diningtable"; "dog"; "horse";
    "motorbike"; "person"; "pottedplant";
    "sheep"; "sofa"; "train"; "tvmonitor" ].

(** [dict(pairs)]: later pairs overwrite earlier ones. *)
Definition dict_of (pairs : list (string * Z)) : gmap string Z :=
  fold_left (fun m p => <[p.1 := p.2]> m) pairs ∅.

(** [range(n)]. *)
Definition range (n : nat) : list Z := map Z.of_nat (seq 0 n).

(** [enumerate(l)]. *)
Definition enumerate {A} (l : list A) : list (Z * A) :=
  combine (range (List.length l)) l.

Record VOCAnnotationTransform : Type := {
  class_to_ind : gmap string Z;
  keep_difficult : bool
}.

(** [__init__]: [class_to_ind or dict(zip(VOC_CLASSES, range(len(VOC_CLASSES))))];
    both [None] and an empty dict are falsy. *)
Definition VOCAnnotationTransform_init
    (class_to_ind : option (gmap string Z)) (keep_difficult : bool)
    : VOCAnnotationTransform :=
  let default := dict_of (combine VOC_CLASSES (range (List.length VOC_CLASSES))) in
  {| class_to_ind :=
       match class_to_ind with
       | Some d => if decide (d = ∅) then default else d
       | None => default
       end;
     keep_difficult := keep_difficult |}.

Definition pts : list string := ["xmin"; "ymin"; "xmax"; "ymax"].

(** [int(e.find(tg).text)] where [e] itself may be [None]. *)
Definition int_field (e : option Element) (tg : string) : result Z :=
  match e with
  | None => Raise AttributeError
  | Some e => t <- find_text tg e ;; int_of_text t
  end.

(** Body of the inner loop: one coordinate, shifted to 0-based and scaled by
    the width (even position) or the height (odd position). *)
Definition scaled_pt (bbox : option Element) (width height : Z)
    (ip : Z * string) : result num :=
  let (i, pt) := ip in
  v <- int_field bbox pt ;;
  let cur_pt := v - 1 in
  if i mod 2 =? 0 then truediv cur_pt width else truediv cur_pt height.

(** [int(obj.find('difficult').text) == 1]. *)
Definition is_difficult (obj : Element) : result bool :=
  d <- int_field (Some obj) "difficult" ;; Ok (d =? 1).

(** The part of the outer loop body that builds one row
    [[xmin, ymin, xmax, ymax, label_ind]]. *)
Definition object_row (self : VOCAnnotationTransform) (obj : Element)
    (width height : Z) : result (list num) :=
  t <- find_text "name" obj ;;
  name <- match t with
          | Some s => Ok (strip (lower s))
          | None => Raise AttributeError
          end ;;
  let bbox := find "bndbox" obj in
  bndbox <- mapM (scaled_pt bbox width height) (enumerate pts) ;;
  label_idx <- match class_to_ind self !! name with
               | Some v => Ok v
               | None => Raise KeyError
               end ;;
  Ok (bndbox ++ [PyInt label_idx]).

(** The outer loop over [target.iter('object')], with [res] as accumulator. *)
Fixpoint call_loop (self : VOCAnnotationTransform) (objs : list Element)
    (width height : Z) (res : list (list num)) : result (list (list num)) :=
  match objs with
  | [] => Ok res
  | obj :: rest =>
      difficult <- is_difficult obj ;;
      if negb (keep_difficult self) && difficult
      then call_loop self rest width height res
      else
        row <- object_row self obj width height ;;
        call_loop self rest width height (res ++ [row])
  end.

(** [VOCAnnotationTransform.__call__]. *)
Definition VOCAnnotationTransform_call (self : VOCAnnotationTransform)
    (target : Element) (width height : Z) : result (list (list num)) :=
  call_loop self (iter "object" target) width height [].

(** A leaf element [<tg>s</tg>] and a VOC object element, for examples. *)
Definition leaf (tg s : string) : Element := Elem tg (Some s) [].

Definition voc_object (name difficult xmin ymin xmax ymax : string) : Element :=
  Elem "object" None
    [ leaf "name" name;
      leaf "pose" "Unspecified";
      leaf "truncated" "0";
      leaf "difficult" difficult;
      Elem "bndbox" None
        [ leaf "xmin" xmin; leaf "ymin" ymin;
          leaf "xmax" xmax; leaf "ymax" ymax ] ].

Definition voc_annotation (objs : list Element) : Element :=
  Elem "annotation" None (leaf "filename" "000001.jpg" :: objs).

(** ** numpy arrays and torch tensors *)

Module Np.

(** A three-axis array with its shape.  An image read from storage has
    shape (height, width, channels); [data] lists rows, then pixels, then
    channel values. *)
Record ndarray3 : Type := {
  shape : nat * nat * nat;
  data : list (list (list Z))
}.

(** [a[:, :, (2, 1, 0)]]: the last axis indexed by the tuple (2, 1, 0). *)
Definition take_210 (a : ndarray3) : result ndarray3 :=
  let '(h, w, c) := shape a in
  if (c <? 3)%nat then Raise IndexError
  else Ok {| shape := (h, w, 3%nat);
             data := map (map (fun px => [nth 2 px 0; nth 1 px 0; nth 0 px 0]))
                         (data a) |}.

(** [torch.from_numpy(a).permute(2, 0, 1)]: axis 2 becomes axis 0. *)
Definition permute_201 (a : ndarray3) : ndarray3 :=
  let '(h, w, c) := shape a in
  {| shape := (c, h, w);
     data := map (fun k => map (map (fun px => nth k px 0)) (data a))
                 (seq 0 c) |}.

(** Element access [a[i, j, k]]; 0 outside the stored data. *)
Definition at3 (a : ndarray3) (i j k : nat) : Z :=
  nth k (nth j (nth i (data a) []) []) 0.

(** [target = np.array(rows)] followed by [target[:, :4]] and
    [target[:, 4]].  An empty list gives a one-axis array, on which the
    two-axis index fails; rows of numbers give a float array. *)
Definition boxes_labels (rows : list (list num))
    : result (list (list Q) * list Q) :=
  match rows with
  | [] => Raise IndexError
  | _ => Ok (map (fun r => firstn 4 (map to_Q r)) rows,
             map (fun r => nth 4 (map to_Q r) 0%Q) rows)
  end.

(** [np.hstack((boxes, np.expand_dims(labels, axis=1)))]. *)
Definition hstack (boxes : list (list Q)) (labels : list Q)
    : result (list (list Q)) :=
  if (List.length boxes =? List.length labels)%nat
  then Ok (map (fun bl => fst bl ++ [snd bl]) (combine boxes labels))
  else Raise ValueError.

End Np.

Import Np.

(** The augmentation callable: [(img, boxes, labels) -> (img, boxes, labels)]. *)
Definition augmentation : Type :=
  ndarray3 -> list (list Q) -> list Q ->
  result (ndarray3 * list (list Q) * list Q).

(** What a retrieval hands back as [target]. *)
Inductive target_value : Type :=
| TElement (e : Element)
| TRows (rows : list (list num))
| TArray (a : list (list Q)).

(** ** The outside world

    [text_files] gives the lines of each readable text file (as iteration
    over the open file yields them), [xml_files] the root element
    [ET.parse(path).getroot()] of each annotation file, [image_files] what
    [cv2.imread] decodes ([None] for anything else).  [array_of_element] is
    numpy's conversion of an element tree followed by the two column
    selections, which the module reaches only when an augmentation is given
    without an annotation transform; it is left unspecified. *)
Record World : Type := {
  text_files : gmap string (list string);
  xml_files : gmap string Element;
  image_files : gmap string ndarray3;
  array_of_element : Element -> result (list (list Q) * list Q)
}.

(** [open(path)] for reading. *)
Definition open (w : World) (path : string) : result (list string) :=
  match text_files w !! path with
  | Some lines => Ok lines
  | None => Raise FileNotFoundError
  end.

Definition ET_parse (w : World) (path : string) : result Element :=
  match xml_files w !! path with
  | Some e => Ok e
  | None => Raise FileNotFoundError
  end.

(** [img = cv2.imread(path)] followed by [img.shape]: [imread] gives [None]
    for an unreadable path, on which the attribute access fails. *)
Definition imread_shape (w : World) (path : string)
    : result (ndarray3 * (nat * nat * nat)) :=
  match image_files w !! path with
  | Some img => Ok (img, shape img)
  | None => Raise AttributeError
  end.

(** [fmt % args] for a format made of text and [%s] fields. *)
Fixpoint percent (fmt : string) (args : list string) : string :=
  match fmt with
  | String "%" (String "s" r) =>
      match args with
      | a :: args' => a +:+ percent r args'
      | [] => percent r []
      end
  | String c r => String c (percent r args)
  | EmptyString => EmptyString
  end.

(** [np.array(target)] with its column selections, by the form of [target];
    an array is its own conversion. *)
Definition as_columns (w : World) (target : target_value)
    : result (list (list Q) * list Q) :=
  match target with
  | TRows rows => boxes_labels rows
  | TElement e => array_of_element w e
  | TArray a => Ok (map (firstn 4) a, map (fun r => nth 4 r 0%Q) a)
  end.

(** The block shared by the three retrieval methods:
    [if self.transform is not None: ...].  It rebinds [img] and binds the
    array form of [target]. *)
Definition augment (t : augmentation) (img : ndarray3)
    (cols : result (list (list Q) * list Q))
    : result (ndarray3 * list (list Q)) :=
  bl <- cols ;;
  r <- t img (fst bl) (snd bl) ;;
  let '(img, boxes, labels) := r in
  img <- take_210 img ;;
  target <- hstack boxes labels ;;
  Ok (img, target).

(** ** [VOCDetection] *)

Record VOCDetection : Type := {
  voc_root : string;
  voc_image_set : list (string * string);
  voc_transform : option augmentation;
  voc_target_transform : option VOCAnnotationTransform;
  voc_name : string;
  _annopath : string;
  _imgpath : string;
  ids : list (string * string)
}.

(** [osp.join(self.root, 'VOC' + year)] and
    [osp.join(rootpath, 'ImageSets', 'Main', name + '.txt')]. *)
Definition rootpath_of (root year : string) : string :=
  osp_join root ["VOC" +:+ year].

Definition manifest_of (rootpath name : string) : string :=
  osp_join rootpath ["ImageSets"; "Main"; name +:+ ".txt"].

(** The loop of [__init__] over [image_sets]. *)
Fixpoint read_ids (w : World) (root : string)
    (image_sets : list (string * string)) (ids : list (string * string))
    : result (list (string * string)) :=
  match image_sets with
  | [] => Ok ids
  | (year, name) :: rest =>
      let rootpath := rootpath_of root year in
      lines <- open w (manifest_of rootpath name) ;;
      read_ids w root rest (ids ++ map (fun line => (rootpath, strip line)) lines)
  end.

Definition VOCDetection_init (w : World) (root : string)
    (image_sets : list (string * string))
    (transform : option augmentation)
    (target_transform : option VOCAnnotationTransform)
    (dataset_name : string) : result VOCDetection :=
  ids <- read_ids w root image_sets [] ;;
  Ok {| voc_root := root;
        voc_image_set := image_sets;
        voc_transform := transform;
        voc_target_transform := target_transform;
        voc_name := dataset_name;
        _annopath := osp_join "%s" ["Annotations"; "%s.xml"];
        _imgpath := osp_join "%s" ["JPEGImages"; "%s.jpg"];
        ids := ids |}.

Definition VOCDetection_len (self : VOCDetection) : Z :=
  Z.of_nat (List.length (ids self)).

Definition VOCDetection_pull_item (w : World) (self : VOCDetection)
    (index : Z) : result (ndarray3 * target_value * Z * Z) :=
  img_id <- getitem (ids self) index ;;
  anno <- ET_parse w (percent (_annopath self) [fst img_id; snd img_id]) ;;
  r <- imread_shape w (percent (_imgpath self) [fst img_id; snd img_id]) ;;
  let '(img, (h, wd, channels)) := r in
  let height := Z.of_nat h in
  let width := Z.of_nat wd in
  target <- match voc_target_transform self with
            | Some xf =>
                rows <- VOCAnnotationTransform_call xf anno width height ;;
                Ok (TRows rows)
            | None => Ok (TElement anno)
            end ;;
  it <- match voc_transform self with
        | Some t =>
            r <- augment t img (as_columns w target) ;;
            Ok (fst r, TArray (snd r))
        | None => Ok (img, target)
        end ;;
  Ok (permute_201 (fst it), snd it, height, width).

Definition VOCDetection_getitem (w : World) (self : VOCDetection)
    (index : Z) : result (ndarray3 * target_value) :=
  r <- VOCDetection_pull_item w self index ;;
  let '(im, gt, h, wd) := r in
  Ok (im, gt).

(** [pull_anno]: the annotation transform applied with width 1, height 1. *)
Definition VOCDetection_pull_anno (w : World) (self : VOCDetection)
    (index : Z) : result (string * list (list num)) :=
  img_id <- getitem (ids self) index ;;
  anno <- ET_parse w (percent (_annopath self) [fst img_id; snd img_id]) ;;
  gt <- match voc_target_transform self with
        | Some xf => VOCAnnotationTransform_call xf anno 1 1
        | None => Raise TypeError
        end ;;
  Ok (snd img_id, gt).

(** ** [ImgDataset] and [LPDataset] *)

(** Values a text-target transform may hand back, and the strings that take
    their place in [LPDataset] when there is no transform. *)
Inductive obj : Type :=
| OStr (s : string)
| OInt (z : Z)
| OSeq (l : list Z).

(** The text-target callable: [text -> data], where [data] is indexed at 0
    and 1. *)
Definition text_transform : Type := string -> result (list obj).

(** The tuple built by [__getitem__] of the two text datasets. *)
Record sample : Type := {
  s_image : ndarray3;
  s_target : list (list Q);
  s_height : Z;
  s_width : Z;
  s_text : obj;
  s_text_length : obj;
  s_rois : list num
}.

(** [[temp[0] / width, temp[1]/height, temp[2]/width, temp[3]/height, 0]],
    evaluated left to right. *)
Definition unit_row (temp : list Z) (width height : Z) : result (list num) :=
  t0 <- getitem temp 0 ;; x0 <- truediv t0 width ;;
  t1 <- getitem temp 1 ;; y0 <- truediv t1 height ;;
  t2 <- getitem temp 2 ;; x1 <- truediv t2 width ;;
  t3 <- getitem temp 3 ;; y1 <- truediv t3 height ;;
  Ok [x0; y0; x1; y1; PyInt 0].

(** The transform block of the text datasets; [target] stays unassigned
    without a transform. *)
Definition augment_opt (transform : option augmentation) (img : ndarray3)
    (target1 : list (list num))
    : result (ndarray3 * option (list (list Q))) :=
  match transform with
  | Some t =>
      r <- augment t img (boxes_labels target1) ;;
      Ok (fst r, Some (snd r))
  | None => Ok (img, None)
  end.

Definition TAB : ascii := ascii_of_nat 9.

Record ImgDataset : Type := {
  img_root : string;
  img_data : list string;
  img_transform : option augmentation;
  img_target_transform : option text_transform;
  img_name : string
}.

Definition ImgDataset_init (w : World) (root csv_root : string)
    (transform : option augmentation)
    (target_transform : option text_transform) : result ImgDataset :=
  lines <- open w csv_root ;;
  Ok {| img_root := root;
        img_data := lines;
        img_transform := transform;
        img_target_transform := target_transform;
        img_name := "ocr" |}.

(** The statements of [ImgDataset.__getitem__] up to and including
    [text = per_label[1].lstrip()]: the image after the transform block, the
    local [target] if assigned, height, width, [target1] and [text]. *)
Definition ImgDataset_prepare (w : World) (self : ImgDataset) (idx : Z)
    : result (ndarray3 * option (list (list Q)) * Z * Z *
              list (list num) * string) :=
  line <- getitem (img_data self) idx ;;
  let per_label := split TAB (rstrip line) in
  f0 <- getitem per_label 0 ;;
  let imgpath := osp_join (img_root self) [f0] in
  r <- imread_shape w imgpath ;;
  let '(img, (h, wd, channels)) := r in
  let height := Z.of_nat h in
  let width := Z.of_nat wd in
  temp <- mapM int_of_string (slice 2 6 per_label) ;;
  row <- unit_row temp width height ;;
  let target1 := [row] in
  it <- augment_opt (img_transform self) img target1 ;;
  f1 <- getitem per_label 1 ;;
  let text := lstrip f1 in
  Ok (fst it, snd it, height, width, target1, text).

Definition ImgDataset_getitem (w : World) (self : ImgDataset) (idx : Z)
    : result sample :=
  p <- ImgDataset_prepare w self idx ;;
  let '(img, target, height, width, target1, text) := p in
  data <- match img_target_transform self with
          | Some f => d <- f text ;; Ok (Some d)
          | None => Ok None
          end ;;
  d <- local data ;;
  text <- getitem d 0 ;;
  d <- local data ;;
  text_length <- getitem d 1 ;;
  r0 <- getitem target1 0 ;;
  let rois := slice 0 4 r0 in
  target <- local target ;;
  Ok {| s_image := permute_201 img; s_target := target;
        s_height := height; s_width := width;
        s_text := text; s_text_length := text_length; s_rois := rois |}.

Record LPDataset : Type := {
  lp_root : string;
  lp_data : list string;
  lp_transform : option augmentation;
  lp_target_transform : option text_transform;
  lp_name : string;
  provinces : list string;
  alphabets : list string;
  ads : list string
}.

(** The three alphabets that [__init__] stores in the instance. *)
Definition PROVINCES : list string :=
  ["皖"; "沪"; "津"; "渝"; "冀"; "晋"; "蒙"; "辽"; "吉"; "黑"; "苏"; "浙";
   "京"; "闽"; "赣"; "鲁"; "豫"; "鄂"; "湘"; "粤"; "桂"; "琼"; "川"; "贵";
   "云"; "藏"; "陕"; "甘"; "青"; "宁"; "新"; "警"; "学"; "O"].

Definition ALPHABETS : list string :=
  ["A"; "B"; "C"; "D"; "E"; "F"; "G"; "H"; "J"; "K"; "L"; "M"; "N";
   "P"; "Q"; "R"; "S"; "T"; "U"; "V"; "W"; "X"; "Y"; "Z"; "O"].

Definition ADS : list string :=
  ["A"; "B"; "C"; "D"; "E"; "F"; "G"; "H"; "J"; "K"; "L"; "M"; "N";
   "P"; "Q"; "R"; "S"; "T"; "U"; "V"; "W"; "X"; "Y"; "Z";
   "0"; "1"; "2"; "3"; "4"; "5"; "6"; "7"; "8"; "9"; "O"].

(** The bound of the subsample, [30000]. *)
Definition MAX_SELECTED : nat := Z.to_nat 30000.

(** [randperm(len(temp))[:30000].tolist()], given the permutation drawn. *)
Definition selected_of (perm : list Z) : list Z := slice 0 MAX_SELECTED perm.

(** [__init__].  [matched] is what [glob.glob(root)] returned and [perm] the
    permutation that [randperm(len(matched))] drew. *)
Definition LPDataset_init (root : string) (matched : list string)
    (perm : list Z) (transform : option augmentation)
    (target_transform : option text_transform) : result LPDataset :=
  let temp := matched in
  let selected := selected_of perm in
  data <- mapM (getitem temp) selected ;;
  Ok {| lp_root := root;
        lp_data := data;
        lp_transform := transform;
        lp_target_transform := target_transform;
        lp_name := "ocr";
        provinces := PROVINCES;
        alphabets := ALPHABETS;
        ads := ADS |}.

Definition LPDataset_getitem (w : World) (self : LPDataset) (idx : Z)
    : result sample :=
  per_name <- getitem (lp_data self) idx ;;
  r <- imread_shape w per_name ;;
  let '(img, (h, wd, channels)) := r in
  let height := Z.of_nat h in
  let width := Z.of_nat wd in
  per_name <- getitem (split "/" per_name) (-1) ;;
  f2 <- getitem (split "-" per_name) 2 ;;
  let data := split "_" f2 in
  let coor := flat_map (split "&") data in
  temp <- mapM int_of_string coor ;;
  row <- unit_row temp width height ;;
  let target1 := [row] in
  it <- augment_opt (lp_transform self) img target1 ;;
  let '(img, target) := it in
  label <- getitem (split "-" per_name) 4 ;;
  label <- mapM int_of_string (split "_" label) ;;
  l0 <- getitem label 0 ;; c0 <- getitem (provinces self) l0 ;;
  l1 <- getitem label 1 ;; c1 <- getitem (alphabets self) l1 ;;
  cs <- mapM (getitem (ads self)) (slice_from 2 label) ;;
  let temp := [c0; c1] ++ cs in
  let text := join temp in
  data <- match lp_target_transform self with
          | Some f => f text
          | None => Ok (map OStr data)
          end ;;
  text <- getitem data 0 ;;
  text_length <- getitem data 1 ;;
  r0 <- getitem target1 0 ;;
  let rois := slice 0 4 r0 in
  target <- local target ;;
  Ok {| s_image := permute_201 img; s_target := target;
        s_height := height; s_width := width;
        s_text := text; s_text_length := text_length; s_rois := rois |}.

(** ** Vocabulary for the statements

    Predicates on inputs, used only to phrase the properties below. *)

(** The four integers written in the [bndbox] of [obj]. *)
Definition xml_box (obj : Element) (xmin ymin xmax ymax : Z) : Prop :=
  int_field (find "bndbox" obj) "xmin" = Ok xmin /\
  int_field (find "bndbox" obj) "ymin" = Ok ymin /\
  int_field (find "bndbox" obj) "xmax" = Ok xmax /\
  int_field (find "bndbox" obj) "ymax" = Ok ymax.

(** The name of [obj], lower-cased and stripped, is a key of the vocabulary
    of [self], with index [c]. *)
Definition xml_label (self : VOCAnnotationTransform) (obj : Element) (c : Z)
    : Prop :=
  exists nm, find_text "name" obj = Ok (Some nm) /\
             class_to_ind self !! strip (lower nm) = Some c.

(** An object element with a readable [difficult] flag, a readable box and a
    name in the vocabulary. *)
Definition valid_object (self : VOCAnnotationTransform) (obj : Element)
    : Prop :=
  (exists d, is_difficult obj = Ok d) /\
  (exists xmin ymin xmax ymax, xml_box obj xmin ymin xmax ymax) /\
  (exists c, xml_label self obj c).

(** An annotation all of whose object elements are valid. *)
Definition valid_annotation (self : VOCAnnotationTransform) (target : Element)
    : Prop :=
  Forall (valid_object self) (iter "object" target).

(** The [difficult] flag of an object as a boolean ([false] if unreadable). *)
Definition difficult_flag (obj : Element) : bool :=
  match is_difficult obj with
  | Ok b => b
  | Raise _ => false
  end.

(** The objects that [__call__] keeps. *)
Definition kept_objects (self : VOCAnnotationTransform) (target : Element)
    : list Element :=
  if keep_difficult self then iter "object" target
  else List.filter (fun obj => negb (difficult_flag obj)) (iter "object" target).

(** ** A small concrete world for the examples *)

Definition NL : ascii := ascii_of_nat 10.

(** The object element used in the examples: a dog at (97,14)-(439,333). *)
Definition dog_object : Element := voc_object "dog" "0" "97" "14" "439" "333".

(** An annotation with the dog and a difficult cat. *)
Definition two_objects : Element :=
  voc_annotation [dog_object; voc_object "cat" "1" "1" "1" "5" "5"].

(** A 2 x 1 image in storage channel order. *)
Definition demo_image : ndarray3 :=
  {| shape := (2, 1, 3)%nat;
     data := [ [ [10; 20; 30] ]; [ [40; 50; 60] ] ] |}.

(** An image of height 400 and width 200. *)
Definition blank_image : ndarray3 :=
  {| shape := (400, 200, 3)%nat;
     data := repeat (repeat [0; 0; 0] 200) 400 |}.

(** A plate file name: box (154,383)-(386,473), label indices 0_0_22_27_27_33_16. *)
Definition plate_file : string :=
  "/ccpd/025-95_113-154&383_386&473-386&473_177&454_154&383_363&402-0_0_22_27_27_33_16-37-15.jpg".

(** The manifest line ["img.jpg\tHELLO\t10\t20\t110\t220"]. *)
Definition hello_line : string :=
  "img.jpg" +:+ String TAB "HELLO" +:+ String TAB "10" +:+ String TAB "20"
  +:+ String TAB "110" +:+ String TAB "220".

Definition demo_world : World :=
  {| text_files :=
       {[ "/voc/VOC2007/ImageSets/Main/trainval.txt" := ["000001" +:+ String NL ""];
          "/ocr/labels.txt" := [hello_line] ]};
     xml_files :=
       {[ "/voc/VOC2007/Annotations/000001.xml" := two_objects ]};
     image_files :=
       {[ "/voc/VOC2007/JPEGImages/000001.jpg" := demo_image;
          "/ocr/img.jpg" := blank_image;
          plate_file := demo_image ]};
     array_of_element := fun _ => Raise TypeError |}.

(** A world without any file. *)
Definition empty_world : World :=
  {| text_files := ∅; xml_files := ∅; image_files := ∅;
     array_of_element := fun _ => Raise TypeError |}.

(** An augmentation that changes nothing. *)
Definition identity_augmentation : augmentation :=
  fun img boxes labels => Ok (img, boxes, labels).

(** A text-target transform that returns the text and its length in bytes. *)
Definition length_transform : text_transform :=
  fun text => Ok [OStr text; OInt (Z.of_nat (String.length text))].

(** The VOC dataset over [demo_world], as [__init__] builds it. *)
Definition demo_voc (transform : option augmentation) : VOCDetection :=
  {| voc_root := "/voc";
     voc_image_set := [("2007", "trainval")];
     voc_transform := transform;
     voc_target_transform := Some (VOCAnnotationTransform_init None false);
     voc_name := "VOC0712";
     _annopath := "%s/Annotations/%s.xml";
     _imgpath := "%s/JPEGImages/%s.jpg";
     ids := [("/voc/VOC2007", "000001")] |}.

(** The OCR dataset over [demo_world], as [__init__] builds it. *)
Definition demo_ocr (transform : option augmentation)
    (target_transform : option text_transform) : ImgDataset :=
  {| img_root := "/ocr";
     img_data := [hello_line];
     img_transform := transform;
     img_target_transform := target_transform;
     img_name := "ocr" |}.

(** The plate dataset over one matched file, as [__init__] builds it. *)
Definition demo_plates (transform : option augmentation)
    (target_transform : option text_transform) : LPDataset :=
  {| lp_root := "/ccpd/*.jpg";
     lp_data := [plate_file];
     lp_transform := transform;
     lp_target_transform := target_transform;
     lp_name := "ocr";
     provinces := PROVINCES;
     alphabets := ALPHABETS;
     ads := ADS |}.

(** What the claims read off a sample: everything but the image. *)
Definition summary (s : sample)
    : list (list Q) * Z * Z * obj * obj * list num :=
  (s_target s, s_height s, s_width s, s_text s, s_text_length s, s_rois s).

(** ** The remaining operations of the module *)

(** [VOC_ROOT = osp.join(HOME, "/media/.../VOCdevkit2007/")], where [HOME]
    comes from the configuration module. *)
Definition VOC_ROOT (HOME : string) : string :=
  osp_join HOME
    ["/media/chenjun/data/1_deeplearning/faster-rcnn.pytorch/data/VOCdevkit2007/"].

(** [cv2.imread(path, cv2.IMREAD_COLOR)]: the decoded image, or [None]. *)
Definition imread (w : World) (path : string) : option ndarray3 :=
  image_files w !! path.

(** [VOCDetection.pull_image]. *)
Definition VOCDetection_pull_image (w : World) (self : VOCDetection)
    (index : Z) : result (option ndarray3) :=
  img_id <- getitem (ids self) index ;;
  Ok (imread w (percent (_imgpath self) [fst img_id; snd img_id])).

(** [ImgDataset.__len__] and [ImgDataset.pull_image]. *)
Definition ImgDataset_len (self : ImgDataset) : Z :=
  Z.of_nat (List.length (img_data self)).

Definition ImgDataset_pull_image (w : World) (self : ImgDataset) (idx : Z)
    : result (option ndarray3) :=
  line <- getitem (img_data self) idx ;;
  let per_label := split TAB (rstrip line) in
  f0 <- getitem per_label 0 ;;
  let imgpath := osp_join (img_root self) [f0] in
  Ok (imread w imgpath).

(** [LPDataset.__len__] and [LPDataset.pull_image]. *)
Definition LPDataset_len (self : LPDataset) : Z :=
  Z.of_nat (List.length (lp_data self)).

Definition LPDataset_pull_image (w : World) (self : LPDataset) (idx : Z)
    : result (option ndarray3) :=
  per_name <- getitem (lp_data self) idx ;;
  Ok (imread w per_name).

(** ** Further vocabulary for the statements *)

(** An index that a list of this length does not accept. *)
Definition out_of_range {A} (l : list A) (i : Z) : Prop :=
  i < - Z.of_nat (List.length l) \/ Z.of_nat (List.length l) <= i.

(** The lines of the manifest of a selector (none if the file is missing). *)
Definition manifest_lines (w : World) (root : string) (ys : string * string)
    : list string :=
  match text_files w !! manifest_of (rootpath_of root (fst ys)) (snd ys) with
  | Some lines => lines
  | None => []
  end.

(** The identifiers that one selector contributes. *)
Definition selector_ids (w : World) (root : string) (ys : string * string)
    : list (string * string) :=
  map (fun line => (rootpath_of root (fst ys), strip line))
      (manifest_lines w root ys).

(** The shape of a target row: four floats and an int. *)
Definition is_target_row (row : list num) (x0 y0 x1 y1 : Q) (c : Z) : Prop :=
  row = [PyFloat x0; PyFloat y0; PyFloat x1; PyFloat y1; PyInt c].

(** An object element that is flagged difficult and has neither a known
    class nor a box. *)
Definition odd_difficult_object : Element :=
  Elem "object" None [leaf "name" "unicorn"; leaf "difficult" "1"].

(** A non-difficult object of a class outside the vocabulary. *)
Definition unicorn_object : Element :=
  voc_object "unicorn" "0" "1" "1" "5" "5".

(** The demo world with an annotation that holds only a difficult object. *)
Definition difficult_world : World :=
  {| text_files := text_files demo_world;
     xml_files :=
       {[ "/voc/VOC2007/Annotations/000001.xml" :=
            voc_annotation [odd_difficult_object] ]};
     image_files := image_files demo_world;
     array_of_element := fun _ => Raise TypeError |}.

(** An object element without a [difficult] child. *)
Definition unflagged_object : Element :=
  Elem "object" None
    [ leaf "name" "dog";
      Elem "bndbox" None
        [ leaf "xmin" "1"; leaf "ymin" "1"; leaf "xmax" "5"; leaf "ymax" "5" ] ].

(** Inversion of a chain of binds that ended in [Ok]. *)
Ltac bind_inversion H :=
  repeat first
    [ progress cbn [bind augment_opt local] in H
    | match type of H with
      | bind ?c _ = Ok _ =>
          let E := fresh "E" in
          destruct c eqn:E; cbn [bind] in H; [| discriminate H]
      | context [match ?x with pair _ _ => _ end] => is_var x; destruct x
      end ].

(** A string made of whitespace only, and a string that begins with
    whitespace. *)
Fixpoint all_space (s : string) : bool :=
  match s with
  | EmptyString => true
  | String c r => isspace c && all_space r
  end.

Definition starts_with_space (s : string) : bool :=
  match s with
  | EmptyString => false
  | String c _ => isspace c
  end.

(** A manifest line whose label field begins with blanks. *)
Definition padded_line : string :=
  "img.jpg" +:+ String TAB "  HELLO" +:+ String TAB "10" +:+ String TAB "20"
  +:+ String TAB "110" +:+ String TAB "220".

(** The OCR dataset over that line alone. *)
Definition padded_ocr : ImgDataset :=
  {| img_root := "/ocr";
     img_data := [padded_line];
     img_transform := Some identity_augmentation;
     img_target_transform := Some length_transform;
     img_name := "ocr" |}.

(** * Properties *)

(** ** Exact quotients *)

Section Quotients.

Local Open Scope Q_scope.

(** The quotient of two ints as a fraction, for a positive divisor. *)
Lemma quotient_pos (a b : Z) :
  (0 < b)%Z -> inject_Z a / inject_Z b == a # Z.to_pos b.
Proof.
  intros Hb. destruct b as [|p|p]; try lia.
  unfold Qeq, Qdiv, Qmult, Qinv, inject_Z. simpl. lia.
Qed.

Lemma truediv_value (a b : Z) :
  (b <> 0)%Z ->
  truediv a b = Ok (PyFloat (Qred (inject_Z a / inject_Z b))).
Proof.
  intros Hb. unfold truediv. destruct (Z.eqb_spec b 0); [lia | reflexivity].
Qed.

Lemma truediv_zero (a : Z) : truediv a 0 = Raise ZeroDivisionError.
Proof. reflexivity. Qed.

Lemma quotient_self (b : Z) :
  (0 < b)%Z -> Qred (inject_Z b / inject_Z b) = 1.
Proof.
  intros Hb. change 1 with (Qred 1). apply Qred_complete.
  rewrite quotient_pos by lia. unfold Qeq. simpl. lia.
Qed.

Lemma quotient_zero (b : Z) :
  (0 < b)%Z -> Qred (inject_Z 0 / inject_Z b) = 0.
Proof.
  intros Hb. change 0 with (Qred 0). apply Qred_complete.
  rewrite quotient_pos by lia. unfold Qeq. simpl. lia.
Qed.

Lemma Qred_inject_Z (a : Z) : Qred (inject_Z a) = inject_Z a.
Proof.
  unfold Qred, inject_Z.
  pose proof (Z.ggcd_gcd a 1) as Hg.
  pose proof (Z.ggcd_correct_divisors a 1) as Hd.
  destruct (Z.ggcd a 1) as [g [aa bb]]. simpl in Hg.
  rewrite Z.gcd_1_r in Hg. subst g. destruct Hd as [Ha Hb].
  replace aa with a by lia. replace bb with 1%Z by lia. reflexivity.
Qed.

Lemma quotient_one (a : Z) : Qred (inject_Z a / inject_Z 1) = inject_Z a.
Proof.
  rewrite <- (Qred_inject_Z a) at 2. apply Qred_complete.
  rewrite quotient_pos by lia. reflexivity.
Qed.

Lemma quotient_neg (a b : Z) :
  (0 < b)%Z -> (Qred (inject_Z a / inject_Z b) < 0 <-> (a < 0)%Z).
Proof.
  intros Hb. rewrite Qred_correct, quotient_pos by lia.
  unfold Qlt. simpl. lia.
Qed.

Lemma quotient_above_one (a b : Z) :
  (0 < b)%Z -> (1 < Qred (inject_Z a / inject_Z b) <-> (b < a)%Z).
Proof.
  intros Hb. rewrite Qred_correct, quotient_pos by lia.
  unfold Qlt. simpl. rewrite Z2Pos.id by lia. lia.
Qed.

End Quotients.

(** ** The annotation transform *)

Section AnnotationTransform.

Variable self : VOCAnnotationTransform.

Lemma scaled_pts_value (obj : Element) (a b c d W H : Z) :
  W <> 0 -> H <> 0 -> xml_box obj a b c d ->
  mapM (scaled_pt (find "bndbox" obj) W H) (enumerate pts)
  = Ok [ PyFloat (Qred (inject_Z (a - 1) / inject_Z W));
         PyFloat (Qred (inject_Z (b - 1) / inject_Z H));
         PyFloat (Qred (inject_Z (c - 1) / inject_Z W));
         PyFloat (Qred (inject_Z (d - 1) / inject_Z H)) ].
Proof.
  intros HW HH (Ha & Hb & Hc & Hd).
  unfold enumerate, pts, range. cbn [List.length seq map combine mapM scaled_pt].
  rewrite Ha, Hb, Hc, Hd. cbn [bind].
  change (Z.of_nat 0 mod 2 =? 0) with true.
  change (Z.of_nat 1 mod 2 =? 0) with false.
  change (Z.of_nat 2 mod 2 =? 0) with true.
  change (Z.of_nat 3 mod 2 =? 0) with false.
  cbn iota. rewrite !truediv_value by assumption. reflexivity.
Qed.

Lemma object_row_value (obj : Element) (a b c d l W H : Z) :
  W <> 0 -> H <> 0 -> xml_box obj a b c d -> xml_label self obj l ->
  object_row self obj W H
  = Ok [ PyFloat (Qred (inject_Z (a - 1) / inject_Z W));
         PyFloat (Qred (inject_Z (b - 1) / inject_Z H));
         PyFloat (Qred (inject_Z (c - 1) / inject_Z W));
         PyFloat (Qred (inject_Z (d - 1) / inject_Z H));
         PyInt l ].
Proof.
  intros HW HH Hbox (nm & Hnm & Hl). unfold object_row.
  rewrite Hnm. cbn [bind].
  rewrite (scaled_pts_value obj a b c d W H HW HH Hbox). cbn [bind].
  rewrite Hl. reflexivity.
Qed.

End AnnotationTransform.

(** The outer loop yields one row per kept object, in document order. *)
Lemma call_loop_rows (self : VOCAnnotationTransform) (W H : Z)
    (objs : list Element) (res : list (list num)) :
  W <> 0 -> H <> 0 -> Forall (valid_object self) objs ->
  exists rows,
    call_loop self objs W H res = Ok (res ++ rows) /\
    Forall2 (fun obj row => valid_object self obj /\
                            object_row self obj W H = Ok row)
      (if keep_difficult self then objs
       else List.filter (fun obj => negb (difficult_flag obj)) objs)
      rows.
Proof.
  intros HW HH Hall. revert res.
  induction Hall as [| obj rest Hobj Hrest IH]; intros res.
  - exists []. rewrite app_nil_r. split; [reflexivity |].
    destruct (keep_difficult self); constructor.
  - pose proof Hobj as ((dflag & Hd) & (a & b & c & d & Hbox) & (l & Hl)).
    pose proof (object_row_value self obj a b c d l W H HW HH Hbox Hl) as Hrow.
    destruct (object_row self obj W H) as [row |] eqn:Hr; [clear Hrow | discriminate].
    cbn [call_loop List.filter]. unfold difficult_flag. rewrite Hd, Hr. cbn [bind].
    destruct (keep_difficult self) eqn:Hk; cbn [negb andb].
    + destruct (IH (res ++ [row])) as (rows & Hcall & Hrows).
      exists (row :: rows). rewrite Hcall, <- app_assoc. split; [reflexivity |].
      constructor; [split |]; assumption.
    + destruct dflag; cbn [negb].
      * apply IH.
      * destruct (IH (res ++ [row])) as (rows & Hcall & Hrows).
        exists (row :: rows). rewrite Hcall, <- app_assoc. split; [reflexivity |].
        constructor; [split |]; assumption.
Qed.

(** C1.  For a raw box (xmin, ymin, xmax, ymax), a positive width [W] and
    height [H] and a class index [c], the row built for an object whose
    0-based box is the raw box and whose class is [c], and the row built by
    the text datasets for the same box, are [xmin/W, ymin/H, xmax/W, ymax/H]
    followed by the class index ([c], respectively the fixed 0): positions 0
    and 2 are divided by [W], positions 1 and 3 by [H].  Nothing is clamped:
    the box (0,0)-(W,H) gives [0,0,1,1], and a coordinate is below 0 or above
    1 exactly when the pixel coordinate is below 0 or above the dimension. *)
Theorem normalizer_exact (self : VOCAnnotationTransform) (obj : Element)
    (xmin ymin xmax ymax W H c : Z) :
  0 < W -> 0 < H ->
  xml_box obj (xmin + 1) (ymin + 1) (xmax + 1) (ymax + 1) ->
  xml_label self obj c ->
  exists x0 y0 x1 y1 : Q,
    object_row self obj W H
      = Ok [PyFloat x0; PyFloat y0; PyFloat x1; PyFloat y1; PyInt c] /\
    unit_row [xmin; ymin; xmax; ymax] W H
      = Ok [PyFloat x0; PyFloat y0; PyFloat x1; PyFloat y1; PyInt 0] /\
    (x0 == inject_Z xmin / inject_Z W /\ y0 == inject_Z ymin / inject_Z H /\
     x1 == inject_Z xmax / inject_Z W /\ y1 == inject_Z ymax / inject_Z H)%Q /\
    ((xmin, ymin, xmax, ymax) = (0, 0, W, H) ->
     (x0, y0, x1, y1) = (0, 0, 1, 1)%Q) /\
    ((x0 < 0)%Q <-> xmin < 0) /\ ((1 < x0)%Q <-> W < xmin) /\
    ((y0 < 0)%Q <-> ymin < 0) /\ ((1 < y0)%Q <-> H < ymin) /\
    ((x1 < 0)%Q <-> xmax < 0) /\ ((1 < x1)%Q <-> W < xmax) /\
    ((y1 < 0)%Q <-> ymax < 0) /\ ((1 < y1)%Q <-> H < ymax).
Proof.
  intros HW HH Hbox Hl.
  exists (Qred (inject_Z xmin / inject_Z W)), (Qred (inject_Z ymin / inject_Z H)),
         (Qred (inject_Z xmax / inject_Z W)), (Qred (inject_Z ymax / inject_Z H)).
  split.
  { rewrite (object_row_value self obj _ _ _ _ c W H ltac:(lia) ltac:(lia) Hbox Hl).
    replace (xmin + 1 - 1) with xmin by lia.
    replace (ymin + 1 - 1) with ymin by lia.
    replace (xmax + 1 - 1) with xmax by lia.
    replace (ymax + 1 - 1) with ymax by lia. reflexivity. }
  split.
  { unfold unit_row.
    change (getitem [xmin; ymin; xmax; ymax] 0) with (Ok xmin).
    change (getitem [xmin; ymin; xmax; ymax] 1) with (Ok ymin).
    change (getitem [xmin; ymin; xmax; ymax] 2) with (Ok xmax).
    change (getitem [xmin; ymin; xmax; ymax] 3) with (Ok ymax).
    cbn [bind]. rewrite !truediv_value by lia. reflexivity. }
  split.
  { repeat split; apply Qred_correct. }
  split.
  { intros E. injection E as -> -> -> ->.
    rewrite !quotient_zero, !quotient_self by lia. reflexivity. }
  repeat split; first [ apply quotient_neg | apply quotient_above_one ]; lia.
Qed.

Lemma normalizer_exact_witness :
  exists x0 y0 x1 y1 : Q,
    object_row (VOCAnnotationTransform_init None false) dog_object 500 375
      = Ok [PyFloat x0; PyFloat y0; PyFloat x1; PyFloat y1; PyInt 11] /\
    unit_row [96; 13; 438; 332] 500 375
      = Ok [PyFloat x0; PyFloat y0; PyFloat x1; PyFloat y1; PyInt 0].
Proof.
  destruct (normalizer_exact (VOCAnnotationTransform_init None false) dog_object
              96 13 438 332 500 375 11) as (x0 & y0 & x1 & y1 & H1 & H2 & _).
  - lia.
  - lia.
  - repeat split; reflexivity.
  - exists "dog". split; reflexivity.
  - exists x0, y0, x1, y1. split; assumption.
Defined.

(** C2.  On a valid annotation the transform returns one row per kept
    object, in document order: without [keep_difficult] the kept objects are
    exactly those whose [difficult] flag is not 1, so every object flagged 1
    is left out; with [keep_difficult] every object element has its row. *)
Theorem difficult_objects_filtered (self : VOCAnnotationTransform)
    (target : Element) (W H : Z) :
  W <> 0 -> H <> 0 -> valid_annotation self target ->
  exists rows,
    VOCAnnotationTransform_call self target W H = Ok rows /\
    (keep_difficult self = false ->
     Forall2 (fun obj row => object_row self obj W H = Ok row)
       (List.filter (fun obj => negb (difficult_flag obj)) (iter "object" target))
       rows /\
     List.length rows
     = List.length (List.filter (fun obj => negb (difficult_flag obj))
                      (iter "object" target))) /\
    (keep_difficult self = true ->
     Forall2 (fun obj row => object_row self obj W H = Ok row)
       (iter "object" target) rows /\
     List.length rows = List.length (iter "object" target)).
Proof.
  intros HW HH Hvalid.
  destruct (call_loop_rows self W H (iter "object" target) [] HW HH Hvalid)
    as (rows & Hcall & Hrows).
  exists rows. split; [exact Hcall |].
  assert (Hweak : forall objs,
             Forall2 (fun obj row => valid_object self obj /\
                                     object_row self obj W H = Ok row) objs rows ->
             Forall2 (fun obj row => object_row self obj W H = Ok row) objs rows).
  { intros objs Hf. eapply Forall2_impl; [exact Hf |]. intros obj row [_ Hr]. exact Hr. }
  split; intros Hk; rewrite Hk in Hrows;
    (split; [apply Hweak; exact Hrows
            | symmetry; eapply Forall2_length; exact Hrows]).
Qed.

Lemma two_objects_valid (kd : bool) :
  valid_annotation (VOCAnnotationTransform_init None kd) two_objects.
Proof.
  repeat constructor.
  - exists false. reflexivity.
  - exists 97, 14, 439, 333. repeat split; reflexivity.
  - exists 11, "dog". split; reflexivity.
  - exists true. reflexivity.
  - exists 1, 1, 5, 5. repeat split; reflexivity.
  - exists 7, "cat". split; reflexivity.
Qed.

Lemma difficult_objects_filtered_witness :
  exists rows,
    VOCAnnotationTransform_call (VOCAnnotationTransform_init None false)
      two_objects 500 375 = Ok rows /\
    List.length rows = 1%nat.
Proof.
  destruct (difficult_objects_filtered (VOCAnnotationTransform_init None false)
              two_objects 500 375) as (rows & Hcall & Hdrop & _).
  - lia.
  - lia.
  - apply two_objects_valid.
  - exists rows. split; [exact Hcall |].
    destruct (Hdrop eq_refl) as [_ Hlen]. exact Hlen.
Defined.

(** C3.  Each of the four [bndbox] integers is decremented by 1 before it is
    divided, so [xmin = 1] gives the quotient with numerator 0; and the
    non-difficult dog at (97,14,439,333) on a 500 x 375 image gives the row
    (96/500, 13/375, 438/500, 332/375) with the vocabulary index of "dog". *)
Theorem xml_coordinates_decremented (self : VOCAnnotationTransform)
    (obj : Element) (a b c d l W H : Z) :
  W <> 0 -> H <> 0 -> xml_box obj a b c d -> xml_label self obj l ->
  object_row self obj W H
  = Ok [ PyFloat (Qred (inject_Z (a - 1) / inject_Z W));
         PyFloat (Qred (inject_Z (b - 1) / inject_Z H));
         PyFloat (Qred (inject_Z (c - 1) / inject_Z W));
         PyFloat (Qred (inject_Z (d - 1) / inject_Z H));
         PyInt l ] /\
  (a = 1 -> Qnum (Qred (inject_Z (a - 1) / inject_Z W)) = 0) /\
  let default := VOCAnnotationTransform_init None false in
  class_to_ind default !! "dog" = Some 11 /\
  VOCAnnotationTransform_call default (voc_annotation [dog_object]) 500 375
  = Ok [[ PyFloat (Qred (96 # 500)); PyFloat (Qred (13 # 375));
          PyFloat (Qred (438 # 500)); PyFloat (Qred (332 # 375));
          PyInt 11 ]].
Proof.
  intros HW HH Hbox Hl. split.
  { apply object_row_value; assumption. }
  split.
  { intros ->. replace (Qred (inject_Z (1 - 1) / inject_Z W)) with (Qred 0).
    - reflexivity.
    - apply Qred_complete. unfold Qdiv. simpl. rewrite Qmult_0_l. reflexivity. }
  split; vm_compute; reflexivity.
Qed.

Lemma xml_coordinates_decremented_witness :
  object_row (VOCAnnotationTransform_init None false) dog_object 500 375
  = Ok [ PyFloat (24 # 125); PyFloat (13 # 375); PyFloat (219 # 250);
         PyFloat (332 # 375); PyInt 11 ].
Proof.
  destruct (xml_coordinates_decremented (VOCAnnotationTransform_init None false)
              dog_object 97 14 439 333 11 500 375) as (Hrow & _).
  - lia.
  - lia.
  - repeat split; reflexivity.
  - exists "dog". split; reflexivity.
  - exact Hrow.
Defined.

(** ** The class vocabulary *)

Lemma dict_of_lookup_inv (pairs : list (string * Z)) (m : gmap string Z)
    (k : string) (v : Z) :
  fold_left (fun m p => <[p.1 := p.2]> m) pairs m !! k = Some v ->
  In (k, v) pairs \/ m !! k = Some v.
Proof.
  revert m. induction pairs as [| [k' v'] rest IH]; intros m Hlook.
  - right. exact Hlook.
  - cbn [fold_left] in Hlook. destruct (IH _ Hlook) as [Hin | Hm].
    + left. right. exact Hin.
    + cbn [fst snd] in Hm. destruct (decide (k' = k)) as [-> | Hne].
      * rewrite lookup_insert_eq in Hm. injection Hm as ->. left. left. reflexivity.
      * rewrite lookup_insert_ne in Hm by exact Hne. right. exact Hm.
Qed.

(** C8.  The default vocabulary is a bijection between [VOC_CLASSES] and the
    indices 0 .. count-1: the names are pairwise distinct, the name at
    position [i] is mapped to [i], and every entry of the mapping pairs an
    index below the count with the name at that position.  The mapping is
    fixed by construction alone: it is the same for either value of
    [keep_difficult], [None] and an empty dict both select it, and a dataset
    built with a transform stores that transform unchanged. *)
Theorem default_vocabulary_bijection (kd : bool) :
  let vocabulary := class_to_ind (VOCAnnotationTransform_init None kd) in
  List.NoDup VOC_CLASSES /\
  (forall i name, nth_error VOC_CLASSES i = Some name ->
                  vocabulary !! name = Some (Z.of_nat i)) /\
  (forall name idx, vocabulary !! name = Some idx ->
                    0 <= idx < Z.of_nat (List.length VOC_CLASSES) /\
                    nth_error VOC_CLASSES (Z.to_nat idx) = Some name) /\
  vocabulary = class_to_ind (VOCAnnotationTransform_init None (negb kd)) /\
  vocabulary = class_to_ind (VOCAnnotationTransform_init (Some ∅) kd) /\
  (forall w root image_sets transform name ds,
      VOCDetection_init w root image_sets transform
        (Some (VOCAnnotationTransform_init None kd)) name = Ok ds ->
      voc_target_transform ds = Some (VOCAnnotationTransform_init None kd)).
Proof.
  cbn zeta. split.
  { unfold VOC_CLASSES. repeat (constructor; [cbn; intuition discriminate |]).
    constructor. }
  split.
  { intros i name Hi.
    do 20 (destruct i as [| i];
           [injection Hi as <-; vm_compute; reflexivity |]).
    cbn in Hi. destruct i; discriminate. }
  split.
  { intros name idx Hlook.
    apply dict_of_lookup_inv in Hlook. destruct Hlook as [Hin | Hempty].
    - cbn in Hin.
      repeat (destruct Hin as [Hin | Hin];
              [injection Hin as <- <-; split; [cbn; lia | reflexivity] |]).
      destruct Hin.
    - rewrite lookup_empty in Hempty. discriminate. }
  split; [reflexivity |]. split; [reflexivity |].
  intros w root image_sets transform name ds Hinit.
  unfold VOCDetection_init in Hinit.
  destruct (read_ids w root image_sets []); cbn [bind] in Hinit; [| discriminate].
  injection Hinit as <-. reflexivity.
Qed.

(** ** [VOCDetection] *)

(** C9.  [pull_anno] applies the annotation transform with width 1 and
    height 1: for an index in range whose annotation file holds a valid
    annotation, every returned coordinate is the XML integer minus 1, and
    the result does not depend on the stored images. *)
Theorem pull_anno_unit_scale (w : World) (self : VOCDetection) (index : Z)
    (img_id : string * string) (anno : Element) (xf : VOCAnnotationTransform) :
  getitem (ids self) index = Ok img_id ->
  ET_parse w (percent (_annopath self) [fst img_id; snd img_id]) = Ok anno ->
  voc_target_transform self = Some xf ->
  valid_annotation xf anno ->
  exists gt,
    VOCDetection_pull_anno w self index = Ok (snd img_id, gt) /\
    VOCAnnotationTransform_call xf anno 1 1 = Ok gt /\
    Forall2 (fun obj row =>
               exists a b c d l,
                 xml_box obj a b c d /\ xml_label xf obj l /\
                 row = [ PyFloat (inject_Z (a - 1)); PyFloat (inject_Z (b - 1));
                         PyFloat (inject_Z (c - 1)); PyFloat (inject_Z (d - 1));
                         PyInt l ])
      (kept_objects xf anno) gt /\
    (forall w', xml_files w' = xml_files w ->
                VOCDetection_pull_anno w' self index = Ok (snd img_id, gt)).
Proof.
  intros Hid Hparse Hxf Hvalid.
  destruct (call_loop_rows xf 1 1 (iter "object" anno) [] ltac:(lia) ltac:(lia)
              Hvalid) as (gt & Hcall & Hrows).
  cbn [app] in Hcall. exists gt.
  assert (Hpull : forall w', xml_files w' = xml_files w ->
             VOCDetection_pull_anno w' self index = Ok (snd img_id, gt)).
  { intros w' Hsame. unfold VOCDetection_pull_anno. rewrite Hid. cbn [bind].
    unfold ET_parse in *. rewrite Hsame.
    destruct (xml_files w !! _); [| discriminate]. injection Hparse as ->.
    cbn [bind]. rewrite Hxf. unfold VOCAnnotationTransform_call.
    rewrite Hcall. reflexivity. }
  split; [apply Hpull; reflexivity |].
  split; [exact Hcall |].
  split; [| exact Hpull].
  unfold kept_objects. eapply Forall2_impl; [exact Hrows |].
  intros obj row [(_ & (a & b & c & d & Hbox) & (l & Hl)) Hrow].
  exists a, b, c, d, l. split; [exact Hbox |]. split; [exact Hl |].
  rewrite (object_row_value xf obj a b c d l 1 1 ltac:(lia) ltac:(lia) Hbox Hl)
    in Hrow.
  rewrite !quotient_one in Hrow. injection Hrow as <-. reflexivity.
Qed.

Example demo_voc_built (transform : option augmentation) :
  VOCDetection_init demo_world "/voc" [("2007", "trainval")] transform
    (Some (VOCAnnotationTransform_init None false)) "VOC0712"
  = Ok (demo_voc transform).
Proof. reflexivity. Qed.

Example demo_ocr_built (transform : option augmentation)
    (target_transform : option text_transform) :
  ImgDataset_init demo_world "/ocr" "/ocr/labels.txt" transform target_transform
  = Ok (demo_ocr transform target_transform).
Proof. reflexivity. Qed.

Lemma pull_anno_unit_scale_witness :
  exists gt,
    VOCDetection_pull_anno demo_world (demo_voc None) 0 = Ok ("000001", gt) /\
    VOCAnnotationTransform_call (VOCAnnotationTransform_init None false)
      two_objects 1 1 = Ok gt.
Proof.
  destruct (pull_anno_unit_scale demo_world (demo_voc None) 0
              ("/voc/VOC2007", "000001") two_objects
              (VOCAnnotationTransform_init None false))
    as (gt & Hpull & Hcall & _).
  - reflexivity.
  - reflexivity.
  - reflexivity.
  - apply two_objects_valid.
  - exists gt. split; assumption.
Defined.

Example pull_anno_demo :
  VOCDetection_pull_anno demo_world (demo_voc None) 0
  = Ok ("000001", [[PyFloat 96; PyFloat 13; PyFloat 438; PyFloat 332; PyInt 11]]).
Proof. reflexivity. Qed.

(** A missing manifest makes the loop of [__init__] stop at [open]. *)
Lemma read_ids_missing (w : World) (root : string)
    (image_sets : list (string * string)) (ids : list (string * string)) :
  Exists (fun ys => text_files w !! manifest_of (rootpath_of root (fst ys)) (snd ys)
                    = None) image_sets ->
  read_ids w root image_sets ids = Raise FileNotFoundError.
Proof.
  intros Hex. revert ids.
  induction Hex as [[year name] rest Hmiss | [year name] rest Hex IH]; intros ids.
  - cbn [read_ids fst snd] in *. unfold open. rewrite Hmiss. reflexivity.
  - cbn [read_ids]. unfold open.
    destruct (text_files w !! _); cbn [bind]; [apply IH | reflexivity].
Qed.

(** C4, as the code has it.  If the manifest file of some selector does not
    exist, construction fails, and the error is the one raised by [open]:
    [FileNotFoundError]. *)
Theorem missing_manifest_fails (w : World) (root : string)
    (image_sets : list (string * string)) (transform : option augmentation)
    (target_transform : option VOCAnnotationTransform) (dataset_name : string) :
  Exists (fun ys => text_files w !! manifest_of (rootpath_of root (fst ys)) (snd ys)
                    = None) image_sets ->
  VOCDetection_init w root image_sets transform target_transform dataset_name
  = Raise FileNotFoundError.
Proof.
  intros Hex. unfold VOCDetection_init.
  rewrite (read_ids_missing w root image_sets [] Hex). reflexivity.
Qed.

Lemma missing_manifest_fails_witness :
  VOCDetection_init demo_world "/voc" [("2007", "trainval"); ("2012", "trainval")]
    None None "VOC0712"
  = Raise FileNotFoundError.
Proof.
  apply (missing_manifest_fails demo_world "/voc"
           [("2007", "trainval"); ("2012", "trainval")] None None "VOC0712").
  apply Exists_cons_tl. apply Exists_cons_hd. reflexivity.
Defined.

(** C4 as stated fails: with no manifest on disk the constructor does not
    raise [IndexError]. *)
Lemma missing_manifest_not_IndexError :
  text_files empty_world
    !! manifest_of (rootpath_of "/voc" "2007") "trainval" = None /\
  VOCDetection_init empty_world "/voc" [("2007", "trainval")] None None "VOC0712"
  <> Raise IndexError.
Proof. split; [reflexivity | discriminate]. Qed.

(** ** Channel order and axis order of the returned image *)

Lemma nth_nil_Z (k : nat) : nth k (@nil Z) 0 = 0.
Proof. destruct k; reflexivity. Qed.

(** [permute(2, 0, 1)] moves the channel axis to the front. *)
Lemma permute_201_at (a : ndarray3) (h w c : nat) (i j k : nat) :
  shape a = (h, w, c) -> (k < c)%nat ->
  shape (permute_201 a) = (c, h, w) /\
  at3 (permute_201 a) k i j = at3 a i j k.
Proof.
  intros Hs Hk. unfold permute_201, at3. rewrite Hs. cbn [shape data].
  split; [reflexivity |].
  set (g := fun px : list Z => nth k px 0).
  set (F := fun k0 : nat => map (map (fun px : list Z => nth k0 px 0)) (data a)).
  rewrite (nth_indep _ [] (F 0%nat)) by (rewrite length_map, length_seq; exact Hk).
  rewrite (map_nth F), seq_nth by exact Hk. cbn [Nat.add]. unfold F.
  fold g.
  change (nth i (map (map g) (data a)) []) with (nth i (map (map g) (data a)) (map g [])).
  rewrite (map_nth (map g)).
  replace (nth j (map g (nth i (data a) [])) 0)
    with (nth j (map g (nth i (data a) [])) (g [])) by (unfold g; rewrite nth_nil_Z; reflexivity).
  rewrite (map_nth g). reflexivity.
Qed.

(** Indexing the last axis by (2, 1, 0) reverses the three channels. *)
Lemma take_210_at (a b : ndarray3) (i j k : nat) :
  take_210 a = Ok b -> (k < 3)%nat ->
  shape b = (fst (fst (shape a)), snd (fst (shape a)), 3%nat) /\
  at3 b i j k = at3 a i j (2 - k).
Proof.
  unfold take_210. destruct (shape a) as [[h w] c].
  destruct (c <? 3)%nat; [discriminate |]. intros Hb Hk.
  injection Hb as <-. cbn [shape data fst snd]. split; [reflexivity |].
  unfold at3. cbn [data].
  set (f := fun px : list Z => [nth 2 px 0; nth 1 px 0; nth 0 px 0]).
  change (nth i (map (map f) (data a)) []) with (nth i (map (map f) (data a)) (map f [])).
  rewrite (map_nth (map f)).
  destruct (Nat.lt_ge_cases j (List.length (nth i (data a) []))) as [Hj | Hj].
  - rewrite (nth_indep _ [] (f [])) by (rewrite length_map; exact Hj).
    rewrite (map_nth f). unfold f.
    destruct k as [| [| [| k]]]; [reflexivity | reflexivity | reflexivity | lia].
  - rewrite !(nth_overflow _ []) by (try rewrite length_map; exact Hj).
    rewrite !nth_nil_Z. reflexivity.
Qed.

(** Inversion of a successful [augment]. *)
Lemma augment_ok (t : augmentation) (img : ndarray3)
    (cols : result (list (list Q) * list Q)) (out : ndarray3)
    (target : list (list Q)) :
  augment t img cols = Ok (out, target) ->
  exists boxes labels img' boxes' labels',
    cols = Ok (boxes, labels) /\
    t img boxes labels = Ok (img', boxes', labels') /\
    take_210 img' = Ok out /\
    hstack boxes' labels' = Ok target.
Proof.
  unfold augment. intros Ha.
  destruct cols as [[boxes labels] |]; cbn [bind fst snd] in Ha; [| discriminate].
  destruct (t img boxes labels) as [[[img' boxes'] labels'] |] eqn:Ht;
    cbn [bind] in Ha; [| discriminate].
  destruct (take_210 img') as [rgb |] eqn:Hrgb; cbn [bind] in Ha; [| discriminate].
  destruct (hstack boxes' labels') as [tg |] eqn:Hh; cbn [bind] in Ha; [| discriminate].
  injection Ha as <- <-.
  exists boxes, labels, img', boxes', labels'. repeat split; assumption.
Qed.

(** The image that [VOCDetection.pull_item] returns: permuted always,
    reversed in its channels only after an augmentation transform. *)
Lemma voc_image_layout (w : World) (self : VOCDetection) (index : Z)
    (im : ndarray3) (tg : target_value) (h wd : Z) :
  VOCDetection_pull_item w self index = Ok (im, tg, h, wd) ->
  exists img_id raw H W C,
    getitem (ids self) index = Ok img_id /\
    image_files w !! percent (_imgpath self) [fst img_id; snd img_id] = Some raw /\
    shape raw = (H, W, C) /\
    match voc_transform self with
    | Some t =>
        exists boxes labels out boxes' labels' H' W' C',
          t raw boxes labels = Ok (out, boxes', labels') /\
          shape out = (H', W', C') /\
          shape im = (3%nat, H', W') /\
          forall c i j, (c < 3)%nat -> at3 im c i j = at3 out i j (2 - c)
    | None =>
        im = permute_201 raw /\
        shape im = (C, H, W) /\
        forall c i j, (c < C)%nat -> at3 im c i j = at3 raw i j c
    end.
Proof.
  unfold VOCDetection_pull_item. intros Hp.
  destruct (getitem (ids self) index) as [img_id |] eqn:Hid;
    cbn [bind] in Hp; [| discriminate].
  destruct (ET_parse w _) as [anno |]; cbn [bind] in Hp; [| discriminate].
  unfold imread_shape in Hp.
  destruct (image_files w !! _) as [raw |] eqn:Hraw; cbn [bind] in Hp; [| discriminate].
  destruct (shape raw) as [[H W] C] eqn:Hs.
  exists img_id, raw, H, W, C.
  split; [reflexivity |]. split; [exact Hraw |]. split; [exact Hs |].
  match type of Hp with
  | bind ?c _ = _ => destruct c as [target |]; cbn [bind] in Hp; [| discriminate]
  end.
  destruct (voc_transform self) as [t |].
  - destruct (augment t raw (as_columns w target)) as [[rgb arr] |] eqn:Ha;
      cbn [bind fst snd] in Hp; [| discriminate].
    injection Hp as <- _ _ _.
    apply augment_ok in Ha.
    destruct Ha as (boxes & labels & out & boxes' & labels' & _ & Ht & Hrgb & _).
    destruct (shape out) as [[H' W'] C'] eqn:Hso.
    exists boxes, labels, out, boxes', labels', H', W', C'.
    split; [exact Ht |]. split; [exact Hso |].
    assert (Hsr : shape rgb = (H', W', 3%nat)).
    { destruct (take_210_at out rgb 0 0 0 Hrgb ltac:(lia)) as [Hsh _].
      rewrite Hso in Hsh. exact Hsh. }
    split.
    + destruct (permute_201_at rgb H' W' 3 0 0 0 Hsr ltac:(lia)) as [Hsh _].
      exact Hsh.
    + intros c i j Hc.
      destruct (permute_201_at rgb H' W' 3 i j c Hsr Hc) as [_ ->].
      destruct (take_210_at out rgb i j c Hrgb Hc) as [_ ->]. reflexivity.
  - cbn [bind fst snd] in Hp. injection Hp as <- _ _ _.
    split; [reflexivity |]. split.
    + unfold permute_201. rewrite Hs. reflexivity.
    + intros c i j Hc.
      destruct (permute_201_at raw H W C i j c Hs Hc) as [_ ->]. reflexivity.
Qed.

(** The transform block: the image it yields, once permuted, is the
    transform's output with the channel axis reversed and moved to the
    front. *)
Lemma augment_layout (t : augmentation) (raw rgb : ndarray3)
    (cols : result (list (list Q) * list Q)) (arr : list (list Q)) :
  augment t raw cols = Ok (rgb, arr) ->
  exists boxes labels out boxes' labels' H' W' C',
    t raw boxes labels = Ok (out, boxes', labels') /\
    shape out = (H', W', C') /\
    shape (permute_201 rgb) = (3%nat, H', W') /\
    forall c i j, (c < 3)%nat -> at3 (permute_201 rgb) c i j = at3 out i j (2 - c).
Proof.
  intros Ha. apply augment_ok in Ha.
  destruct Ha as (boxes & labels & out & boxes' & labels' & _ & Ht & Hrgb & _).
  destruct (shape out) as [[H' W'] C'] eqn:Hso.
  exists boxes, labels, out, boxes', labels', H', W', C'.
  split; [exact Ht |]. split; [exact Hso |].
  assert (Hsr : shape rgb = (H', W', 3%nat)).
  { destruct (take_210_at out rgb 0 0 0 Hrgb ltac:(lia)) as [Hsh _].
    rewrite Hso in Hsh. exact Hsh. }
  split.
  - destruct (permute_201_at rgb H' W' 3 0 0 0 Hsr ltac:(lia)) as [Hsh _].
    exact Hsh.
  - intros c i j Hc.
    destruct (permute_201_at rgb H' W' 3 i j c Hsr Hc) as [_ ->].
    destruct (take_210_at out rgb i j c Hrgb Hc) as [_ ->]. reflexivity.
Qed.

(** The image that [ImgDataset.__getitem__] returns. *)
Lemma ocr_image_layout (w : World) (o : ImgDataset) (idx : Z) (s : sample) :
  ImgDataset_getitem w o idx = Ok s ->
  exists line f0 raw t boxes labels out boxes' labels' H' W' C',
    getitem (img_data o) idx = Ok line /\
    getitem (split TAB (rstrip line)) 0 = Ok f0 /\
    image_files w !! osp_join (img_root o) [f0] = Some raw /\
    img_transform o = Some t /\
    t raw boxes labels = Ok (out, boxes', labels') /\
    shape out = (H', W', C') /\
    shape (s_image s) = (3%nat, H', W') /\
    forall c i j, (c < 3)%nat -> at3 (s_image s) c i j = at3 out i j (2 - c).
Proof.
  unfold ImgDataset_getitem. intros Hget.
  destruct (ImgDataset_prepare w o idx)
    as [[[[[[img tg] h] wd] t1] text] |] eqn:Hp; cbn [bind] in Hget;
    [| discriminate].
  assert (Hs : s_image s = permute_201 img /\ tg <> None).
  { destruct (img_target_transform o) as [f |]; [| discriminate Hget].
    destruct (f text) as [d |]; cbn [bind local] in Hget; [| discriminate Hget].
    destruct (getitem d 0); cbn [bind] in Hget; [| discriminate Hget].
    destruct (getitem d 1); cbn [bind] in Hget; [| discriminate Hget].
    destruct (getitem t1 0); cbn [bind] in Hget; [| discriminate Hget].
    destruct tg; cbn [bind local] in Hget; [| discriminate Hget].
    injection Hget as <-. split; [reflexivity | discriminate]. }
  destruct Hs as [Himg Htg]. clear Hget.
  unfold ImgDataset_prepare, imread_shape in Hp.
  destruct (getitem (img_data o) idx) as [line |] eqn:Hline; cbn [bind] in Hp;
    [| discriminate].
  destruct (getitem (split TAB (rstrip line)) 0) as [f0 |] eqn:Hf0;
    cbn [bind] in Hp; [| discriminate].
  destruct (image_files w !! _) as [raw |] eqn:Hraw; cbn [bind] in Hp;
    [| discriminate].
  destruct (shape raw) as [[H W] C].
  destruct (mapM int_of_string _) as [temp |]; cbn [bind] in Hp; [| discriminate].
  destruct (unit_row temp _ _) as [row |]; cbn [bind] in Hp; [| discriminate].
  unfold augment_opt in Hp.
  destruct (img_transform o) as [t |] eqn:Ht.
  - destruct (augment t raw (boxes_labels [row])) as [[rgb arr] |] eqn:Ha;
      cbn [bind fst snd] in Hp; [| discriminate].
    destruct (getitem (split TAB (rstrip line)) 1); cbn [bind] in Hp;
      [| discriminate].
    injection Hp as <- _ _ _ _ _.
    apply augment_layout in Ha.
    destruct Ha as (boxes & labels & out & boxes' & labels' & H' & W' & C'
                    & Hout & Hso & Hsh & Hat).
    exists line, f0, raw, t, boxes, labels, out, boxes', labels', H', W', C'.
    rewrite Himg. repeat split; assumption.
  - cbn [bind fst snd] in Hp.
    destruct (getitem (split TAB (rstrip line)) 1); cbn [bind] in Hp;
      [| discriminate].
    injection Hp as _ <- _ _ _ _. congruence.
Qed.

(** The image that [LPDataset.__getitem__] returns. *)
Lemma plate_image_layout (w : World) (p : LPDataset) (idx : Z) (s : sample) :
  LPDataset_getitem w p idx = Ok s ->
  exists per_name raw t boxes labels out boxes' labels' H' W' C',
    getitem (lp_data p) idx = Ok per_name /\
    image_files w !! per_name = Some raw /\
    lp_transform p = Some t /\
    t raw boxes labels = Ok (out, boxes', labels') /\
    shape out = (H', W', C') /\
    shape (s_image s) = (3%nat, H', W') /\
    forall c i j, (c < 3)%nat -> at3 (s_image s) c i j = at3 out i j (2 - c).
Proof.
  unfold LPDataset_getitem, imread_shape. intros Hget.
  destruct (getitem (lp_data p) idx) as [per_name |] eqn:Hname;
    cbn [bind] in Hget; [| discriminate].
  destruct (image_files w !! per_name) as [raw |] eqn:Hraw; cbn [bind] in Hget;
    [| discriminate].
  destruct (shape raw) as [[H W] C].
  destruct (getitem (split "/" per_name) (-1)) as [base |]; cbn [bind] in Hget;
    [| discriminate].
  destruct (getitem (split "-" base) 2) as [field |]; cbn [bind] in Hget;
    [| discriminate].
  destruct (mapM int_of_string _) as [temp |]; cbn [bind] in Hget; [| discriminate].
  destruct (unit_row temp _ _) as [row |]; cbn [bind] in Hget; [| discriminate].
  unfold augment_opt in Hget.
  destruct (lp_transform p) as [t |] eqn:Ht.
  - destruct (augment t raw (boxes_labels [row])) as [[rgb arr] |] eqn:Ha;
      cbn [bind fst snd] in Hget; [| discriminate].
    bind_inversion Hget. injection Hget as <-. cbn [s_image].
    apply augment_layout in Ha.
    destruct Ha as (boxes & labels & out & boxes' & labels' & H' & W' & C'
                    & Hout & Hso & Hsh & Hat).
    exists per_name, raw, t, boxes, labels, out, boxes', labels', H', W', C'.
    repeat split; assumption.
  - cbn [bind] in Hget. bind_inversion Hget. discriminate Hget.
Qed.

(** C5, as the code has it.  The image returned by a successful retrieval
    always has its axes permuted from (H, W, C) to (C, H, W).  The channel
    axis is reversed only when an augmentation transform was supplied, and
    then it is the transform's output that is reversed; without a transform
    [VOCDetection] leaves the channels in storage order.  The two text
    datasets return only with a transform, so the image they return is
    always the transform's output, reversed and permuted. *)
Theorem returned_image_layout :
  (forall (w : World) (self : VOCDetection) (index : Z) (im : ndarray3)
          (tg : target_value) (h wd : Z),
      VOCDetection_pull_item w self index = Ok (im, tg, h, wd) ->
      exists img_id raw H W C,
        getitem (ids self) index = Ok img_id /\
        image_files w !! percent (_imgpath self) [fst img_id; snd img_id]
        = Some raw /\
        shape raw = (H, W, C) /\
        match voc_transform self with
        | Some t =>
            exists boxes labels out boxes' labels' H' W' C',
              t raw boxes labels = Ok (out, boxes', labels') /\
              shape out = (H', W', C') /\
              shape im = (3%nat, H', W') /\
              forall c i j, (c < 3)%nat -> at3 im c i j = at3 out i j (2 - c)
        | None =>
            im = permute_201 raw /\
            shape im = (C, H, W) /\
            forall c i j, (c < C)%nat -> at3 im c i j = at3 raw i j c
        end) /\
  (forall (w : World) (o : ImgDataset) (idx : Z) (s : sample),
      ImgDataset_getitem w o idx = Ok s ->
      exists line f0 raw t boxes labels out boxes' labels' H' W' C',
        getitem (img_data o) idx = Ok line /\
        getitem (split TAB (rstrip line)) 0 = Ok f0 /\
        image_files w !! osp_join (img_root o) [f0] = Some raw /\
        img_transform o = Some t /\
        t raw boxes labels = Ok (out, boxes', labels') /\
        shape out = (H', W', C') /\
        shape (s_image s) = (3%nat, H', W') /\
        forall c i j, (c < 3)%nat -> at3 (s_image s) c i j = at3 out i j (2 - c)) /\
  (forall (w : World) (p : LPDataset) (idx : Z) (s : sample),
      LPDataset_getitem w p idx = Ok s ->
      exists per_name raw t boxes labels out boxes' labels' H' W' C',
        getitem (lp_data p) idx = Ok per_name /\
        image_files w !! per_name = Some raw /\
        lp_transform p = Some t /\
        t raw boxes labels = Ok (out, boxes', labels') /\
        shape out = (H', W', C') /\
        shape (s_image s) = (3%nat, H', W') /\
        forall c i j, (c < 3)%nat -> at3 (s_image s) c i j = at3 out i j (2 - c)).
Proof.
  split; [| split].
  - exact voc_image_layout.
  - exact ocr_image_layout.
  - exact plate_image_layout.
Qed.

Lemma returned_image_layout_witness :
  (exists im tg out,
      VOCDetection_pull_item demo_world (demo_voc (Some identity_augmentation)) 0
      = Ok (im, tg, 2, 1) /\
      shape im = (3, 2, 1)%nat /\
      forall c i j, (c < 3)%nat -> at3 im c i j = at3 out i j (2 - c)) /\
  (exists s out,
      LPDataset_getitem demo_world
        (demo_plates (Some identity_augmentation) (Some length_transform)) 0
      = Ok s /\
      forall c i j, (c < 3)%nat -> at3 (s_image s) c i j = at3 out i j (2 - c)).
Proof.
  destruct returned_image_layout as (Hvoc & _ & Hplate). split.
  - pose proof (Hvoc demo_world (demo_voc (Some identity_augmentation)) 0
                  _ _ 2 1 eq_refl)
      as (img_id & raw & H & W & C & _ & _ & _ & Hlayout).
    cbn [voc_transform demo_voc] in Hlayout.
    destruct Hlayout
      as (boxes & labels & out & boxes' & labels' & H' & W' & C' & _ & _ & _ & Hat).
    eexists _, _, out. split; [reflexivity |]. split; [reflexivity | exact Hat].
  - pose proof (Hplate demo_world
                  (demo_plates (Some identity_augmentation) (Some length_transform))
                  0 _ eq_refl)
      as (per_name & raw & t & boxes & labels & out & boxes' & labels'
          & H' & W' & C' & _ & _ & _ & _ & _ & _ & Hat).
    eexists _, out. split; [reflexivity | exact Hat].
Defined.

(** C5 as stated fails: without a transform the returned image keeps the
    storage channel order; its channel 0 is the stored channel 0, not the
    stored channel 2. *)
Lemma image_not_reversed_without_transform :
  exists im gt,
    voc_transform (demo_voc None) = None /\
    VOCDetection_getitem demo_world (demo_voc None) 0 = Ok (im, gt) /\
    at3 im 0 0 0 = at3 demo_image 0 0 0 /\
    at3 im 0 0 0 <> at3 demo_image 0 0 2.
Proof.
  eexists _, _. split; [reflexivity |]. split; [reflexivity |].
  split; [reflexivity | discriminate].
Qed.

(** ** The bounded subsample of [LPDataset] *)

Lemma range_spec (n : nat) (x : Z) :
  In x (range n) <-> 0 <= x < Z.of_nat n.
Proof.
  unfold range. rewrite in_map_iff. split.
  - intros (i & <- & Hi). apply in_seq in Hi. lia.
  - intros Hx. exists (Z.to_nat x). split; [lia |]. apply in_seq. lia.
Qed.

Lemma range_NoDup (n : nat) : List.NoDup (range n).
Proof.
  unfold range. apply Finite.Injective_map_NoDup.
  - intros a b Hab. lia.
  - apply seq_NoDup.
Qed.

Lemma nth_range (l : list string) :
  map (fun x => nth (Z.to_nat x) l "") (range (List.length l)) = l.
Proof.
  unfold range. rewrite map_map.
  induction l as [| a l IH]; [reflexivity |].
  cbn [List.length seq map]. rewrite Nat2Z.id. cbn [nth]. f_equal.
  rewrite <- seq_shift, map_map.
  rewrite <- IH at 2. apply map_ext. intros i. rewrite !Nat2Z.id. reflexivity.
Qed.

Lemma getitem_in_range {A} (l : list A) (d : A) (x : Z) :
  0 <= x < Z.of_nat (List.length l) ->
  getitem l x = Ok (nth (Z.to_nat x) l d).
Proof.
  intros Hx. unfold getitem.
  destruct (Z.ltb_spec x 0); [lia |].
  destruct (Z.ltb_spec x 0); [lia |].
  destruct (Z.leb_spec (Z.of_nat (List.length l)) x); [lia |]. cbn [orb].
  rewrite (nth_error_nth' l d) by lia. reflexivity.
Qed.

Lemma mapM_getitem (l : list string) (sel : list Z) :
  (forall x, In x sel -> 0 <= x < Z.of_nat (List.length l)) ->
  mapM (getitem l) sel = Ok (map (fun x => nth (Z.to_nat x) l "") sel).
Proof.
  induction sel as [| x sel IH]; intros Hsel; [reflexivity |].
  cbn [mapM map]. rewrite (getitem_in_range l "" x) by (apply Hsel; left; reflexivity).
  cbn [bind]. rewrite IH by (intros y Hy; apply Hsel; right; exact Hy).
  reflexivity.
Qed.

Lemma selected_of_firstn (perm : list Z) :
  selected_of perm = firstn MAX_SELECTED perm.
Proof. unfold selected_of, slice. rewrite Nat.sub_0_r. reflexivity. Qed.

(** C6.  Given the permutation drawn over the matched files, the selected
    index list has [min(30000, pool size)] entries, all of them distinct
    positions of the pool, and the stored files are the pool entries at
    these positions; a pool of at most 30000 files is selected entirely. *)
Theorem plate_subsample (root : string) (matched : list string) (perm : list Z)
    (transform : option augmentation) (target_transform : option text_transform) :
  Permutation perm (range (List.length matched)) ->
  exists ds,
    LPDataset_init root matched perm transform target_transform = Ok ds /\
    Z.of_nat (List.length (selected_of perm))
    = Z.min 30000 (Z.of_nat (List.length matched)) /\
    List.NoDup (selected_of perm) /\
    (forall x, In x (selected_of perm) -> 0 <= x < Z.of_nat (List.length matched)) /\
    lp_data ds = map (fun x => nth (Z.to_nat x) matched "") (selected_of perm) /\
    (Z.of_nat (List.length matched) <= 30000 ->
     Permutation (selected_of perm) (range (List.length matched)) /\
     Permutation (lp_data ds) matched).
Proof.
  intros Hperm.
  assert (Hlen : List.length perm = List.length matched).
  { rewrite (Permutation_length Hperm). unfold range.
    rewrite length_map, length_seq. reflexivity. }
  assert (Hin : forall x, In x (selected_of perm) ->
                          0 <= x < Z.of_nat (List.length matched)).
  { intros x Hx. apply range_spec. apply (Permutation_in _ Hperm).
    rewrite selected_of_firstn in Hx.
    rewrite <- (firstn_skipn MAX_SELECTED perm). apply in_or_app. left. exact Hx. }
  unfold LPDataset_init. rewrite (mapM_getitem matched _ Hin). cbn [bind].
  eexists. split; [reflexivity |]. cbn [lp_data].
  split.
  { rewrite selected_of_firstn, length_firstn, Hlen. unfold MAX_SELECTED. lia. }
  split.
  { rewrite selected_of_firstn.
    apply (NoDup_app_remove_r _ (skipn MAX_SELECTED perm)).
    rewrite firstn_skipn.
    apply (Permutation_NoDup (Permutation_sym Hperm)). apply range_NoDup. }
  split; [exact Hin |]. split; [reflexivity |].
  intros Hsmall.
  assert (Hall : selected_of perm = perm).
  { rewrite selected_of_firstn. apply firstn_all2. unfold MAX_SELECTED. lia. }
  rewrite Hall. split; [exact Hperm |].
  apply perm_trans
    with (map (fun x => nth (Z.to_nat x) matched "") (range (List.length matched))).
  - apply Permutation_map. exact Hperm.
  - rewrite nth_range. apply Permutation_refl.
Qed.

Lemma plate_subsample_witness :
  exists ds,
    LPDataset_init "/ccpd/*.jpg" ["a.jpg"; "b.jpg"; "c.jpg"] [2; 0; 1] None None
    = Ok ds /\
    lp_data ds = ["c.jpg"; "a.jpg"; "b.jpg"].
Proof.
  destruct (plate_subsample "/ccpd/*.jpg" ["a.jpg"; "b.jpg"; "c.jpg"] [2; 0; 1]
              None None) as (ds & Hinit & _ & _ & _ & Hdata & _).
  - change (range (List.length ["a.jpg"; "b.jpg"; "c.jpg"])) with [0; 1; 2].
    apply perm_trans with [0; 2; 1].
    + apply perm_swap.
    + apply perm_skip. apply perm_swap.
  - exists ds. split; [exact Hinit |]. rewrite Hdata. reflexivity.
Defined.

Example demo_plates_built (transform : option augmentation)
    (target_transform : option text_transform) :
  LPDataset_init "/ccpd/*.jpg" [plate_file] [0] transform target_transform
  = Ok (demo_plates transform target_transform).
Proof. reflexivity. Qed.

(** ** The text datasets *)

(** [lstrip] removes a run of whitespace from the front, and all of it. *)
Lemma lstrip_spec (s : string) :
  exists ws, s = ws +:+ lstrip s /\ all_space ws = true /\
             starts_with_space (lstrip s) = false.
Proof.
  induction s as [| c r IH].
  - exists "". repeat split.
  - cbn [lstrip]. destruct (isspace c) eqn:Hc.
    + destruct IH as (ws & Heq & Hws & Hstart).
      exists (String c ws). split; [| split].
      * change (String c ws +:+ lstrip r) with (String c (ws +:+ lstrip r)).
        rewrite <- Heq. reflexivity.
      * cbn [all_space]. rewrite Hc, Hws. reflexivity.
      * exact Hstart.
    + exists "". split; [reflexivity |]. split; [reflexivity |].
      cbn [starts_with_space]. exact Hc.
Qed.

Lemma truediv_inv (a b : Z) (v : num) :
  truediv a b = Ok v -> v = PyFloat (Qred (inject_Z a / inject_Z b)).
Proof.
  unfold truediv. destruct (b =? 0); [discriminate |].
  intros Hv. injection Hv as <-. reflexivity.
Qed.

(** A row exists only for four or more integers, and is made of the first
    four, divided by width, height, width, height, and the class 0. *)
Lemma unit_row_inv (temp : list Z) (W H : Z) (row : list num) :
  unit_row temp W H = Ok row ->
  exists x0 y0 x1 y1 rest,
    temp = x0 :: y0 :: x1 :: y1 :: rest /\
    row = [ PyFloat (Qred (inject_Z x0 / inject_Z W));
            PyFloat (Qred (inject_Z y0 / inject_Z H));
            PyFloat (Qred (inject_Z x1 / inject_Z W));
            PyFloat (Qred (inject_Z y1 / inject_Z H)); PyInt 0 ].
Proof.
  unfold unit_row. intros Hrow.
  destruct temp as [| x0 [| y0 [| x1 [| y1 rest]]]].
  - discriminate Hrow.
  - change (getitem [x0] 0) with (Ok x0) in Hrow. cbn [bind] in Hrow.
    destruct (truediv x0 W); cbn [bind] in Hrow; discriminate Hrow.
  - change (getitem [x0; y0] 0) with (Ok x0) in Hrow.
    change (getitem [x0; y0] 1) with (Ok y0) in Hrow. cbn [bind] in Hrow.
    destruct (truediv x0 W); cbn [bind] in Hrow; [| discriminate Hrow].
    destruct (truediv y0 H); cbn [bind] in Hrow; discriminate Hrow.
  - change (getitem [x0; y0; x1] 0) with (Ok x0) in Hrow.
    change (getitem [x0; y0; x1] 1) with (Ok y0) in Hrow.
    change (getitem [x0; y0; x1] 2) with (Ok x1) in Hrow. cbn [bind] in Hrow.
    destruct (truediv x0 W); cbn [bind] in Hrow; [| discriminate Hrow].
    destruct (truediv y0 H); cbn [bind] in Hrow; [| discriminate Hrow].
    destruct (truediv x1 W); cbn [bind] in Hrow; discriminate Hrow.
  - rewrite (getitem_in_range (x0 :: y0 :: x1 :: y1 :: rest) 0 0) in Hrow
      by (cbn [List.length]; lia).
    rewrite (getitem_in_range (x0 :: y0 :: x1 :: y1 :: rest) 0 1) in Hrow
      by (cbn [List.length]; lia).
    rewrite (getitem_in_range (x0 :: y0 :: x1 :: y1 :: rest) 0 2) in Hrow
      by (cbn [List.length]; lia).
    rewrite (getitem_in_range (x0 :: y0 :: x1 :: y1 :: rest) 0 3) in Hrow
      by (cbn [List.length]; lia).
    change (Z.to_nat 0) with 0%nat in Hrow. change (Z.to_nat 1) with 1%nat in Hrow.
    change (Z.to_nat 2) with 2%nat in Hrow. change (Z.to_nat 3) with 3%nat in Hrow.
    cbn [nth bind] in Hrow.
    destruct (truediv x0 W) as [v0 |] eqn:E0; cbn [bind] in Hrow; [| discriminate Hrow].
    destruct (truediv y0 H) as [v1 |] eqn:E1; cbn [bind] in Hrow; [| discriminate Hrow].
    destruct (truediv x1 W) as [v2 |] eqn:E2; cbn [bind] in Hrow; [| discriminate Hrow].
    destruct (truediv y1 H) as [v3 |] eqn:E3; cbn [bind] in Hrow; [| discriminate Hrow].
    apply truediv_inv in E0, E1, E2, E3. subst. injection Hrow as <-.
    exists x0, y0, x1, y1, rest. split; reflexivity.
Qed.

(** Four integers read from [per_label[2:6]] are the fields 2 to 5. *)
Lemma fields_2_to_5 (pl : list string) (x0 y0 x1 y1 : Z) (rest : list Z) :
  mapM int_of_string (slice 2 6 pl) = Ok (x0 :: y0 :: x1 :: y1 :: rest) ->
  exists f0 f1 s2 s3 s4 s5 tl,
    pl = f0 :: f1 :: s2 :: s3 :: s4 :: s5 :: tl /\
    int_of_string s2 = Ok x0 /\ int_of_string s3 = Ok y0 /\
    int_of_string s4 = Ok x1 /\ int_of_string s5 = Ok y1.
Proof.
  unfold slice. intros Hm.
  destruct pl as [| f0 [| f1 [| s2 [| s3 [| s4 [| s5 tl]]]]]];
    cbn [Nat.sub skipn firstn mapM] in Hm;
    repeat match type of Hm with
           | context [int_of_string ?x] =>
               let E := fresh "E" in
               destruct (int_of_string x) eqn:E; cbn [bind] in Hm;
               [| discriminate Hm]
           end;
    try discriminate Hm.
  injection Hm as <- <- <- <- _.
  exists f0, f1, s2, s3, s4, s5, tl. repeat split; assumption.
Qed.

(** The general rules of the tab-separated reader, on the statements of
    [__getitem__] before the text conversion. *)
Lemma tab_separated_rules (w : World) (o : ImgDataset) (idx : Z)
    (img : ndarray3) (tg : option (list (list Q))) (h wd : Z)
    (t1 : list (list num)) (text : string) :
  ImgDataset_prepare w o idx = Ok (img, tg, h, wd, t1, text) ->
  exists line f0 f1 s2 s3 s4 s5 rest x0 y0 x1 y1 ws raw,
    getitem (img_data o) idx = Ok line /\
    split TAB (rstrip line) = f0 :: f1 :: s2 :: s3 :: s4 :: s5 :: rest /\
    image_files w !! osp_join (img_root o) [f0] = Some raw /\
    h = Z.of_nat (fst (fst (shape raw))) /\
    wd = Z.of_nat (snd (fst (shape raw))) /\
    f1 = ws +:+ text /\ all_space ws = true /\ starts_with_space text = false /\
    int_of_string s2 = Ok x0 /\ int_of_string s3 = Ok y0 /\
    int_of_string s4 = Ok x1 /\ int_of_string s5 = Ok y1 /\
    t1 = [[ PyFloat (Qred (inject_Z x0 / inject_Z wd));
            PyFloat (Qred (inject_Z y0 / inject_Z h));
            PyFloat (Qred (inject_Z x1 / inject_Z wd));
            PyFloat (Qred (inject_Z y1 / inject_Z h)); PyInt 0 ]].
Proof.
  unfold ImgDataset_prepare, imread_shape. intros Hp.
  destruct (getitem (img_data o) idx) as [line |] eqn:Hline; cbn [bind] in Hp;
    [| discriminate].
  destruct (getitem (split TAB (rstrip line)) 0) as [f0' |] eqn:Hf0;
    cbn [bind] in Hp; [| discriminate].
  destruct (image_files w !! _) as [raw |] eqn:Hraw; cbn [bind] in Hp;
    [| discriminate].
  destruct (shape raw) as [[H W] C] eqn:Hs.
  destruct (mapM int_of_string _) as [temp |] eqn:Hm; cbn [bind] in Hp;
    [| discriminate].
  destruct (unit_row temp _ _) as [row |] eqn:Hrow; cbn [bind] in Hp;
    [| discriminate].
  destruct (augment_opt (img_transform o) raw [row]) as [it |]; cbn [bind] in Hp;
    [| discriminate].
  destruct (getitem (split TAB (rstrip line)) 1) as [f1' |] eqn:Hf1;
    cbn [bind] in Hp; [| discriminate].
  injection Hp as _ _ <- <- <- <-.
  apply unit_row_inv in Hrow.
  destruct Hrow as (x0 & y0 & x1 & y1 & rest' & -> & ->).
  apply fields_2_to_5 in Hm.
  destruct Hm as (f0 & f1 & s2 & s3 & s4 & s5 & tl & Hpl & H2 & H3 & H4 & H5).
  rewrite Hpl in Hf0, Hf1.
  rewrite (getitem_in_range _ "" 0) in Hf0 by (cbn [List.length]; lia).
  rewrite (getitem_in_range _ "" 1) in Hf1 by (cbn [List.length]; lia).
  change (Z.to_nat 0) with 0%nat in Hf0. change (Z.to_nat 1) with 1%nat in Hf1.
  cbn [nth] in Hf0, Hf1. injection Hf0 as <-. injection Hf1 as <-.
  destruct (lstrip_spec f1) as (ws & Hws & Hall & Hstart).
  exists line, f0, f1, s2, s3, s4, s5, tl, x0, y0, x1, y1, ws, raw.
  split; [reflexivity |]. split; [exact Hpl |]. split; [exact Hraw |].
  rewrite Hs. cbn [fst snd].
  repeat split; assumption.
Qed.

(** C7.  The line "img.jpg<TAB>HELLO<TAB>10<TAB>20<TAB>110<TAB>220" on an
    image of width 200 and height 400 splits into six fields, its target row
    is [10/200, 20/400, 110/200, 220/400, 0] = [0.05, 0.05, 0.55, 0.55, 0]
    with the coordinates taken from fields 2 to 5 without decrement and the
    class fixed to 0, and its text label is "HELLO".  In general, whenever
    the statements before the text conversion succeed, the line has at least
    six tab-separated fields, the text is field 1 without its leading
    whitespace, the coordinates are the integers of fields 2 to 5 divided by
    the width and the height of the image, not decremented, and the class
    index is 0; a returned sample carries the first four entries of that
    row as rois and what the text-target transform made of that text. *)
Theorem tab_separated_example :
  (let ds := demo_ocr (Some identity_augmentation) (Some length_transform) in
   let row := [ PyFloat (Qred (10 # 200)); PyFloat (Qred (20 # 400));
                PyFloat (Qred (110 # 200)); PyFloat (Qred (220 # 400)); PyInt 0 ] in
   img_data ds = [hello_line] /\
   split TAB (rstrip hello_line) = ["img.jpg"; "HELLO"; "10"; "20"; "110"; "220"] /\
   shape blank_image = (400, 200, 3)%nat /\
   row = [ PyFloat (Qred 0.05); PyFloat (Qred 0.05);
           PyFloat (Qred 0.55); PyFloat (Qred 0.55); PyInt 0 ] /\
   (p <- ImgDataset_prepare demo_world ds 0 ;;
    let '(_, _, height, width, target1, text) := p in
    Ok (height, width, target1, text))
   = Ok (400, 200, [row], "HELLO") /\
   (s <- ImgDataset_getitem demo_world ds 0 ;; Ok (summary s))
   = Ok ([map to_Q row], 400, 200, OStr "HELLO", OInt 5, firstn 4 row)) /\
  (forall (w : World) (o : ImgDataset) (idx : Z) (img : ndarray3)
          (tg : option (list (list Q))) (h wd : Z) (t1 : list (list num))
          (text : string),
      ImgDataset_prepare w o idx = Ok (img, tg, h, wd, t1, text) ->
      exists line f0 f1 s2 s3 s4 s5 rest x0 y0 x1 y1 ws raw,
        getitem (img_data o) idx = Ok line /\
        split TAB (rstrip line) = f0 :: f1 :: s2 :: s3 :: s4 :: s5 :: rest /\
        image_files w !! osp_join (img_root o) [f0] = Some raw /\
        h = Z.of_nat (fst (fst (shape raw))) /\
        wd = Z.of_nat (snd (fst (shape raw))) /\
        f1 = ws +:+ text /\ all_space ws = true /\
        starts_with_space text = false /\
        int_of_string s2 = Ok x0 /\ int_of_string s3 = Ok y0 /\
        int_of_string s4 = Ok x1 /\ int_of_string s5 = Ok y1 /\
        t1 = [[ PyFloat (Qred (inject_Z x0 / inject_Z wd));
                PyFloat (Qred (inject_Z y0 / inject_Z h));
                PyFloat (Qred (inject_Z x1 / inject_Z wd));
                PyFloat (Qred (inject_Z y1 / inject_Z h)); PyInt 0 ]]) /\
  (forall (w : World) (o : ImgDataset) (idx : Z) (s : sample),
      ImgDataset_getitem w o idx = Ok s ->
      exists img tg row text f d,
        ImgDataset_prepare w o idx
        = Ok (img, tg, s_height s, s_width s, [row], text) /\
        s_rois s = firstn 4 row /\
        img_target_transform o = Some f /\ f text = Ok d /\
        getitem d 0 = Ok (s_text s) /\ getitem d 1 = Ok (s_text_length s)).
Proof.
  split; [cbn zeta; repeat split; vm_compute; reflexivity |].
  split; [exact tab_separated_rules |].
  intros w o idx s. unfold ImgDataset_getitem. intros Hget.
  destruct (ImgDataset_prepare w o idx)
    as [[[[[[img tg] h] wd] t1] text] |] eqn:Hp; cbn [bind] in Hget;
    [| discriminate].
  destruct (tab_separated_rules w o idx img tg h wd t1 text Hp)
    as (line & f0 & f1 & s2 & s3 & s4 & s5 & rest & x0 & y0 & x1 & y1 & ws & raw
        & _ & _ & _ & _ & _ & _ & _ & _ & _ & _ & _ & _ & Ht1).
  destruct (img_target_transform o) as [f |]; [| discriminate Hget].
  destruct (f text) as [d |] eqn:Hd; cbn [bind local] in Hget; [| discriminate Hget].
  destruct (getitem d 0) as [txt |] eqn:H0; cbn [bind] in Hget; [| discriminate Hget].
  destruct (getitem d 1) as [len |] eqn:H1; cbn [bind] in Hget; [| discriminate Hget].
  subst t1.
  match type of Hget with
  | context [getitem [?r] 0] => change (getitem [r] 0) with (Ok r) in Hget
  end.
  destruct tg as [arr |]; cbn [bind local] in Hget; [| discriminate Hget].
  injection Hget as <-. cbn [s_height s_width s_rois s_text s_text_length].
  eexists img, (Some arr), _, text, f, d.
  split; [reflexivity |]. split; [reflexivity |].
  repeat split; assumption.
Qed.

(** The padded line gives the same label as the plain one. *)
Lemma tab_separated_example_witness :
  (s <- ImgDataset_getitem demo_world padded_ocr 0 ;; Ok (s_text s, s_rois s))
  = Ok (OStr "HELLO",
        [PyFloat (1 # 20); PyFloat (1 # 20); PyFloat (11 # 20); PyFloat (11 # 20)]).
Proof.
  destruct tab_separated_example as (_ & Hrules & _).
  destruct (ImgDataset_prepare demo_world padded_ocr 0)
    as [[[[[[img tg] h] wd] t1] text] |] eqn:Hp.
  - destruct (Hrules demo_world padded_ocr 0 img tg h wd t1 text Hp) as (line & _).
    vm_compute. reflexivity.
  - vm_compute in Hp. discriminate Hp.
Defined.

(** Without a text-target transform the local [data] of
    [ImgDataset.__getitem__] is never assigned. *)
Lemma ImgDataset_getitem_without_text_transform (w : World) (self : ImgDataset)
    (idx : Z) :
  img_target_transform self = None ->
  ImgDataset_getitem w self idx
  = (p <- ImgDataset_prepare w self idx ;; Raise UnboundLocalError).
Proof.
  intros Hnone. unfold ImgDataset_getitem. rewrite Hnone.
  destruct (ImgDataset_prepare w self idx) as [[[[[[img target] height] width] target1] text] |];
    reflexivity.
Qed.

(** C10, as the code has it.  In the OCR dataset a retrieval without a
    text-target transform never returns: once the statements before the text
    conversion have succeeded it fails with [UnboundLocalError], and a
    failure of one of those statements is raised as it is. *)
Theorem ocr_text_transform_required (w : World) (self : ImgDataset) (idx : Z) :
  img_target_transform self = None ->
  (forall s, ImgDataset_getitem w self idx <> Ok s) /\
  (forall p, ImgDataset_prepare w self idx = Ok p ->
             ImgDataset_getitem w self idx = Raise UnboundLocalError) /\
  (forall e, ImgDataset_prepare w self idx = Raise e ->
             ImgDataset_getitem w self idx = Raise e).
Proof.
  intros Hnone.
  rewrite (ImgDataset_getitem_without_text_transform w self idx Hnone).
  destruct (ImgDataset_prepare w self idx) as [p |e]; cbn [bind].
  - split; [discriminate |]. split; [reflexivity | discriminate].
  - split; [discriminate |]. split; [discriminate |].
    intros e' He. injection He as ->. reflexivity.
Qed.

Lemma ocr_text_transform_required_witness :
  ImgDataset_getitem demo_world (demo_ocr (Some identity_augmentation) None) 0
  = Raise UnboundLocalError.
Proof.
  destruct (ocr_text_transform_required demo_world
              (demo_ocr (Some identity_augmentation) None) 0 eq_refl)
    as (_ & Hprep & _).
  destruct (ImgDataset_prepare demo_world
              (demo_ocr (Some identity_augmentation) None) 0) as [p |] eqn:Hp.
  - exact (Hprep p eq_refl).
  - vm_compute in Hp. discriminate Hp.
Defined.

(** C10 as stated fails for the plate dataset: [data] is already bound to
    the pieces of the coordinate field, so without a text-target transform
    the retrieval returns, with these pieces as text and text length. *)
Lemma plate_retrieval_without_text_transform :
  lp_target_transform (demo_plates (Some identity_augmentation) None) = None /\
  (s <- LPDataset_getitem demo_world
          (demo_plates (Some identity_augmentation) None) 0 ;;
   Ok (s_text s, s_text_length s))
  = Ok (OStr "154&383", OStr "386&473") /\
  LPDataset_getitem demo_world (demo_plates (Some identity_augmentation) None) 0
  <> Raise UnboundLocalError.
Proof.
  split; [reflexivity |]. split; [vm_compute; reflexivity |].
  intros Habs.
  assert (Hok : is_ok (LPDataset_getitem demo_world
                         (demo_plates (Some identity_augmentation) None) 0) = true)
    by (vm_compute; reflexivity).
  rewrite Habs in Hok. discriminate Hok.
Qed.

Example plate_retrieval_with_text_transform :
  (s <- LPDataset_getitem demo_world
          (demo_plates (Some identity_augmentation) (Some length_transform)) 0 ;;
   Ok (summary s))
  = Ok ([[154%Q; (383 # 2)%Q; 386%Q; (473 # 2)%Q; 0%Q]], 2, 1,
        OStr "皖AY339S", OInt 9,
        [PyFloat 154; PyFloat (383 # 2); PyFloat 386; PyFloat (473 # 2)]).
Proof. vm_compute. reflexivity. Qed.

(** The text datasets return only when an augmentation transform was
    supplied: [target] is assigned nowhere else. *)
Lemma ImgDataset_prepare_target (w : World) (self : ImgDataset) (idx : Z)
    (img : ndarray3) (target : option (list (list Q))) (height width : Z)
    (target1 : list (list num)) (text : string) :
  img_transform self = None ->
  ImgDataset_prepare w self idx = Ok (img, target, height, width, target1, text) ->
  target = None.
Proof.
  unfold ImgDataset_prepare. intros Hnone Hp.
  rewrite Hnone in Hp. cbn [augment_opt] in Hp.
  repeat match type of Hp with
         | bind ?c _ = Ok _ =>
             destruct c; cbn [bind fst snd] in Hp; [| discriminate Hp]
         | context [let '(_, _) := ?x in _] => destruct x
         end.
  injection Hp as _ <- _ _ _ _. reflexivity.
Qed.

Lemma ImgDataset_needs_augmentation (w : World) (self : ImgDataset) (idx : Z)
    (s : sample) :
  ImgDataset_getitem w self idx = Ok s -> img_transform self <> None.
Proof.
  unfold ImgDataset_getitem. intros Hget Hnone.
  destruct (ImgDataset_prepare w self idx)
    as [[[[[[img target] height] width] target1] text] |] eqn:Hp;
    cbn [bind] in Hget; [| discriminate Hget].
  apply (ImgDataset_prepare_target w self idx _ _ _ _ _ _ Hnone) in Hp. subst target.
  destruct (img_target_transform self) as [f |]; [| discriminate Hget].
  destruct (f text) as [d |]; cbn [bind local] in Hget; [| discriminate Hget].
  destruct (getitem d 0); cbn [bind] in Hget; [| discriminate Hget].
  destruct (getitem d 1); cbn [bind] in Hget; [| discriminate Hget].
  destruct (getitem target1 0); cbn [bind] in Hget; discriminate Hget.
Qed.

(** * Further properties of the module *)

(** ** The index of [VOCDetection] *)

Lemma read_ids_all (w : World) (root : string)
    (image_sets : list (string * string)) (ids0 : list (string * string)) :
  Forall (fun ys => text_files w !! manifest_of (rootpath_of root (fst ys)) (snd ys)
                    <> None) image_sets ->
  read_ids w root image_sets ids0
  = Ok (ids0 ++ flat_map (selector_ids w root) image_sets).
Proof.
  intros Hall. revert ids0.
  induction Hall as [| [year name] rest Hhere Hrest IH]; intros ids0.
  - cbn [read_ids flat_map]. rewrite app_nil_r. reflexivity.
  - cbn [read_ids flat_map]. unfold open, selector_ids at 1, manifest_lines.
    cbn [fst snd] in *.
    destruct (text_files w !! manifest_of (rootpath_of root year) name)
      as [lines |]; [| congruence].
    cbn [bind]. rewrite IH, <- app_assoc. reflexivity.
Qed.

(** When every manifest exists, construction succeeds; the identifiers are
    the lines of the manifests, stripped and paired with the selector's root
    path, in file order within a selector and in selector order across
    selectors; [__len__] is the total number of lines; both transforms are
    stored as given. *)
Theorem index_built_in_order (w : World) (root : string)
    (image_sets : list (string * string)) (transform : option augmentation)
    (target_transform : option VOCAnnotationTransform) (dataset_name : string) :
  Forall (fun ys => text_files w !! manifest_of (rootpath_of root (fst ys)) (snd ys)
                    <> None) image_sets ->
  exists ds,
    VOCDetection_init w root image_sets transform target_transform dataset_name
    = Ok ds /\
    ids ds = flat_map (selector_ids w root) image_sets /\
    VOCDetection_len ds
    = Z.of_nat (list_sum (map (fun ys => List.length (manifest_lines w root ys))
                              image_sets)) /\
    voc_transform ds = transform /\
    voc_target_transform ds = target_transform.
Proof.
  intros Hall. unfold VOCDetection_init.
  rewrite (read_ids_all w root image_sets [] Hall). cbn [bind app].
  eexists. split; [reflexivity |]. cbn [ids voc_transform voc_target_transform].
  split; [reflexivity |]. split; [| split; reflexivity].
  unfold VOCDetection_len. cbn [ids]. f_equal.
  clear Hall. induction image_sets as [| ys rest IH]; [reflexivity |].
  cbn [flat_map map list_sum]. rewrite length_app, IH.
  unfold selector_ids at 1. rewrite length_map. reflexivity.
Qed.

Lemma index_built_in_order_witness :
  exists ds,
    VOCDetection_init demo_world "/voc" [("2007", "trainval")] None None "VOC0712"
    = Ok ds /\
    ids ds = [("/voc/VOC2007", "000001")].
Proof.
  destruct (index_built_in_order demo_world "/voc" [("2007", "trainval")]
              None None "VOC0712") as (ds & Hinit & Hids & _).
  - repeat constructor. discriminate.
  - exists ds. split; [exact Hinit |]. rewrite Hids. reflexivity.
Defined.

(** ** Indices *)

Lemma getitem_out_of_range {A} (l : list A) (i : Z) :
  out_of_range l i -> getitem l i = Raise IndexError.
Proof.
  unfold out_of_range, getitem. intros Hi.
  destruct (Z.ltb_spec i 0).
  - destruct (Z.ltb_spec (i + Z.of_nat (List.length l)) 0);
      [reflexivity |].
    destruct (Z.leb_spec (Z.of_nat (List.length l)) (i + Z.of_nat (List.length l)));
      [reflexivity | lia].
  - destruct (Z.ltb_spec i 0); [lia |].
    destruct (Z.leb_spec (Z.of_nat (List.length l)) i); [reflexivity | lia].
Qed.

Lemma getitem_negative {A} (l : list A) (i : Z) :
  - Z.of_nat (List.length l) <= i < 0 ->
  getitem l i = getitem l (i + Z.of_nat (List.length l)).
Proof.
  intros Hi. unfold getitem. cbn zeta.
  assert (E1 : (i <? 0) = true) by (apply Z.ltb_lt; lia).
  assert (E2 : (i + Z.of_nat (List.length l) <? 0) = false) by (apply Z.ltb_ge; lia).
  rewrite E1, E2. cbn iota. rewrite E2. reflexivity.
Qed.

(** An index outside [-len, len) makes every retrieval operation of
    [VOCDetection] fail with [IndexError], before any file is touched. *)
Theorem voc_index_out_of_range (w : World) (self : VOCDetection) (index : Z) :
  out_of_range (ids self) index ->
  VOCDetection_pull_item w self index = Raise IndexError /\
  VOCDetection_getitem w self index = Raise IndexError /\
  VOCDetection_pull_anno w self index = Raise IndexError /\
  VOCDetection_pull_image w self index = Raise IndexError.
Proof.
  intros Hi. apply getitem_out_of_range in Hi.
  unfold VOCDetection_getitem, VOCDetection_pull_item, VOCDetection_pull_anno,
    VOCDetection_pull_image.
  rewrite Hi. repeat split; reflexivity.
Qed.

Lemma voc_index_out_of_range_witness :
  VOCDetection_getitem demo_world (demo_voc None) 1 = Raise IndexError /\
  VOCDetection_pull_anno empty_world (demo_voc None) (-2) = Raise IndexError.
Proof.
  split.
  - apply (voc_index_out_of_range demo_world (demo_voc None) 1).
    right. cbn. lia.
  - apply (voc_index_out_of_range empty_world (demo_voc None) (-2)).
    left. cbn. lia.
Defined.

(** The same for the two text datasets. *)
Theorem text_index_out_of_range (w : World) (o : ImgDataset) (p : LPDataset)
    (idx : Z) :
  out_of_range (img_data o) idx -> out_of_range (lp_data p) idx ->
  ImgDataset_getitem w o idx = Raise IndexError /\
  ImgDataset_pull_image w o idx = Raise IndexError /\
  LPDataset_getitem w p idx = Raise IndexError /\
  LPDataset_pull_image w p idx = Raise IndexError.
Proof.
  intros Ho Hp. apply getitem_out_of_range in Ho, Hp.
  unfold ImgDataset_getitem, ImgDataset_prepare, ImgDataset_pull_image,
    LPDataset_getitem, LPDataset_pull_image.
  rewrite Ho, Hp. repeat split; reflexivity.
Qed.

Lemma text_index_out_of_range_witness :
  ImgDataset_getitem demo_world (demo_ocr None None) 1 = Raise IndexError /\
  LPDataset_getitem demo_world (demo_plates None None) 1 = Raise IndexError.
Proof.
  destruct (text_index_out_of_range demo_world (demo_ocr None None)
              (demo_plates None None) 1) as (H1 & _ & H2 & _).
  - right. cbn. lia.
  - right. cbn. lia.
  - split; assumption.
Defined.

(** A negative index in [-len, 0) addresses the sample at [index + len] in
    every retrieval operation. *)
Theorem negative_index_wraps (w : World) (v : VOCDetection) (o : ImgDataset)
    (p : LPDataset) (index : Z) :
  - VOCDetection_len v <= index < 0 ->
  - ImgDataset_len o <= index < 0 ->
  - LPDataset_len p <= index < 0 ->
  VOCDetection_pull_item w v index
  = VOCDetection_pull_item w v (index + VOCDetection_len v) /\
  VOCDetection_getitem w v index
  = VOCDetection_getitem w v (index + VOCDetection_len v) /\
  VOCDetection_pull_anno w v index
  = VOCDetection_pull_anno w v (index + VOCDetection_len v) /\
  VOCDetection_pull_image w v index
  = VOCDetection_pull_image w v (index + VOCDetection_len v) /\
  ImgDataset_getitem w o index = ImgDataset_getitem w o (index + ImgDataset_len o) /\
  ImgDataset_pull_image w o index
  = ImgDataset_pull_image w o (index + ImgDataset_len o) /\
  LPDataset_getitem w p index = LPDataset_getitem w p (index + LPDataset_len p) /\
  LPDataset_pull_image w p index
  = LPDataset_pull_image w p (index + LPDataset_len p).
Proof.
  unfold VOCDetection_len, ImgDataset_len, LPDataset_len. intros Hv Ho Hp.
  apply getitem_negative in Hv, Ho, Hp.
  unfold VOCDetection_getitem, VOCDetection_pull_item, VOCDetection_pull_anno,
    VOCDetection_pull_image, ImgDataset_getitem, ImgDataset_prepare,
    ImgDataset_pull_image, LPDataset_getitem, LPDataset_pull_image.
  rewrite Hv, Ho, Hp. repeat split; reflexivity.
Qed.

Lemma negative_index_wraps_witness :
  VOCDetection_pull_anno demo_world (demo_voc None) (-1)
  = VOCDetection_pull_anno demo_world (demo_voc None) 0.
Proof.
  destruct (negative_index_wraps demo_world (demo_voc None) (demo_ocr None None)
              (demo_plates None None) (-1)) as (_ & _ & H & _).
  - change (- (1) <= -1 < 0). lia.
  - change (- (1) <= -1 < 0). lia.
  - change (- (1) <= -1 < 0). lia.
  - exact H.
Defined.

(** ** [pull_image] *)

(** For an index in range [pull_image] never raises: it returns what
    [cv2.imread] gives for the sample's image path, which is [None] when the
    image cannot be read.  The retrieval [pull_item] needs that image: it
    returns only if [pull_image] returns an image, whose height and width it
    reports; when the annotation is there and the image is not, it fails
    with [AttributeError]. *)
Theorem pull_image_never_raises (w : World) (self : VOCDetection) (index : Z)
    (img_id : string * string) :
  getitem (ids self) index = Ok img_id ->
  let path := percent (_imgpath self) [fst img_id; snd img_id] in
  VOCDetection_pull_image w self index = Ok (image_files w !! path) /\
  (forall im tg h wd,
      VOCDetection_pull_item w self index = Ok (im, tg, h, wd) ->
      exists raw, VOCDetection_pull_image w self index = Ok (Some raw) /\
                  h = Z.of_nat (fst (fst (shape raw))) /\
                  wd = Z.of_nat (snd (fst (shape raw)))) /\
  (image_files w !! path = None ->
   xml_files w !! percent (_annopath self) [fst img_id; snd img_id] <> None ->
   VOCDetection_pull_item w self index = Raise AttributeError).
Proof.
  intros Hid path. subst path.
  unfold VOCDetection_pull_image, VOCDetection_pull_item, ET_parse, imread_shape,
    imread.
  rewrite Hid. cbn [bind]. split; [reflexivity |]. split.
  - intros im tg h wd Hp.
    destruct (xml_files w !! _) as [anno |]; cbn [bind] in Hp; [| discriminate].
    destruct (image_files w !! _) as [raw |]; cbn [bind] in Hp; [| discriminate].
    exists raw. split; [reflexivity |].
    destruct (shape raw) as [[H W] C]. cbn [fst snd].
    repeat match type of Hp with
           | bind ?c _ = Ok _ =>
               destruct c; cbn [bind] in Hp; [| discriminate Hp]
           end.
    injection Hp as _ _ <- <-. split; reflexivity.
  - intros Himg Hxml. rewrite Himg.
    destruct (xml_files w !! _); [reflexivity | congruence].
Qed.

(** A world that holds the annotation of the demo sample but not its image. *)
Lemma pull_image_never_raises_witness :
  let w := {| text_files := ∅;
              xml_files := xml_files demo_world;
              image_files := ∅;
              array_of_element := fun _ => Raise TypeError |} in
  VOCDetection_pull_image w (demo_voc None) 0 = Ok None /\
  VOCDetection_pull_item w (demo_voc None) 0 = Raise AttributeError.
Proof.
  intros w.
  destruct (pull_image_never_raises w (demo_voc None) 0
              ("/voc/VOC2007", "000001") eq_refl) as (Himg & _ & Hmiss).
  split.
  - exact Himg.
  - apply Hmiss; [reflexivity | discriminate].
Defined.

(** ** Rows and failures of the annotation transform *)

Lemma truediv_float (a b : Z) (v : num) :
  truediv a b = Ok v -> exists q, v = PyFloat q.
Proof.
  unfold truediv. destruct (b =? 0); [discriminate |].
  intros Hv. injection Hv as <-. eexists. reflexivity.
Qed.

Lemma scaled_pt_float (bbox : option Element) (W H : Z) (ip : Z * string)
    (v : num) :
  scaled_pt bbox W H ip = Ok v -> exists q, v = PyFloat q.
Proof.
  unfold scaled_pt. destruct ip as [i pt].
  destruct (int_field bbox pt); cbn [bind]; [| discriminate].
  destruct (i mod 2 =? 0); apply truediv_float.
Qed.

(** A row that [object_row] returns is made of four floats and the index
    under which the vocabulary holds the lower-cased, stripped name. *)
Lemma object_row_shape (self : VOCAnnotationTransform) (obj : Element)
    (W H : Z) (row : list num) :
  object_row self obj W H = Ok row ->
  exists x0 y0 x1 y1 c nm,
    is_target_row row x0 y0 x1 y1 c /\
    find_text "name" obj = Ok (Some nm) /\
    class_to_ind self !! strip (lower nm) = Some c.
Proof.
  unfold object_row. intros Hrow.
  destruct (find_text "name" obj) as [[nm |] |]; cbn [bind] in Hrow;
    try discriminate.
  unfold enumerate, pts, range in Hrow.
  cbn [List.length seq map combine mapM] in Hrow.
  destruct (scaled_pt _ W H (_, "xmin")) as [v0 |] eqn:E0; cbn [bind] in Hrow;
    [| discriminate].
  destruct (scaled_pt _ W H (_, "ymin")) as [v1 |] eqn:E1; cbn [bind] in Hrow;
    [| discriminate].
  destruct (scaled_pt _ W H (_, "xmax")) as [v2 |] eqn:E2; cbn [bind] in Hrow;
    [| discriminate].
  destruct (scaled_pt _ W H (_, "ymax")) as [v3 |] eqn:E3; cbn [bind] in Hrow;
    [| discriminate].
  destruct (class_to_ind self !! strip (lower nm)) as [c |] eqn:Hc;
    cbn [bind] in Hrow; [| discriminate].
  injection Hrow as <-.
  apply scaled_pt_float in E0, E1, E2, E3.
  destruct E0 as [x0 ->], E1 as [y0 ->], E2 as [x1 ->], E3 as [y1 ->].
  exists x0, y0, x1, y1, c, nm. repeat split. exact Hc.
Qed.

Lemma call_loop_shape (self : VOCAnnotationTransform) (W H : Z)
    (objs : list Element) (res out : list (list num)) :
  call_loop self objs W H res = Ok out ->
  exists rows,
    out = res ++ rows /\
    (List.length rows <= List.length objs)%nat /\
    Forall (fun row => exists obj, In obj objs /\ object_row self obj W H = Ok row)
           rows.
Proof.
  revert res. induction objs as [| obj rest IH]; intros res Hcall.
  - cbn [call_loop] in Hcall. injection Hcall as <-.
    exists []. rewrite app_nil_r. repeat split; [cbn; lia | constructor].
  - cbn [call_loop] in Hcall.
    destruct (is_difficult obj) as [d |]; cbn [bind] in Hcall; [| discriminate].
    assert (Hweak : forall rows,
               Forall (fun row => exists o, In o rest /\
                                            object_row self o W H = Ok row) rows ->
               Forall (fun row => exists o, In o (obj :: rest) /\
                                            object_row self o W H = Ok row) rows).
    { intros rows Hf. eapply Forall_impl; [exact Hf |].
      intros row (o & Ho & Hr). exists o. split; [right; exact Ho | exact Hr]. }
    destruct (negb (keep_difficult self) && d).
    + destruct (IH res Hcall) as (rows & -> & Hlen & Hrows).
      exists rows. split; [reflexivity |]. split; [cbn; lia |].
      apply Hweak. exact Hrows.
    + destruct (object_row self obj W H) as [row |] eqn:Hrow; cbn [bind] in Hcall;
        [| discriminate].
      destruct (IH _ Hcall) as (rows & -> & Hlen & Hrows).
      exists (row :: rows). rewrite <- app_assoc. split; [reflexivity |].
      split; [cbn; lia |]. constructor.
      * exists obj. split; [left; reflexivity | exact Hrow].
      * apply Hweak. exact Hrows.
Qed.

(** Whatever the annotation, a result of [__call__] has at most one row per
    [object] element, and every row has the form
    [x0, y0, x1, y1, label]: four floats followed by an index that the
    vocabulary holds for some name.  With the default vocabulary the index
    lies in 0 .. 19. *)
Theorem transform_rows_well_formed (self : VOCAnnotationTransform)
    (target : Element) (W H : Z) (rows : list (list num)) :
  VOCAnnotationTransform_call self target W H = Ok rows ->
  (List.length rows <= List.length (iter "object" target))%nat /\
  Forall (fun row =>
            exists x0 y0 x1 y1 c name,
              is_target_row row x0 y0 x1 y1 c /\
              class_to_ind self !! name = Some c /\
              (class_to_ind self
               = class_to_ind (VOCAnnotationTransform_init None false) ->
               0 <= c < 20))
         rows.
Proof.
  unfold VOCAnnotationTransform_call. intros Hcall.
  apply call_loop_shape in Hcall. destruct Hcall as (rows' & Heq & Hlen & Hrows).
  cbn [app] in Heq. subst rows'. split; [exact Hlen |].
  eapply Forall_impl; [exact Hrows |].
  intros row (obj & _ & Hrow). apply object_row_shape in Hrow.
  destruct Hrow as (x0 & y0 & x1 & y1 & c & nm & Hshape & _ & Hc).
  exists x0, y0, x1, y1, c, (strip (lower nm)).
  split; [exact Hshape |]. split; [exact Hc |].
  intros Hdef. rewrite Hdef in Hc.
  apply dict_of_lookup_inv in Hc. destruct Hc as [Hin | Hempty].
  - apply in_combine_r in Hin. apply range_spec in Hin. cbn in Hin. lia.
  - rewrite lookup_empty in Hempty. discriminate.
Qed.

Lemma transform_rows_well_formed_witness :
  exists rows,
    VOCAnnotationTransform_call (VOCAnnotationTransform_init None false)
      two_objects 500 375 = Ok rows /\
    (List.length rows <= 2)%nat.
Proof.
  eexists. split; [reflexivity |].
  destruct (transform_rows_well_formed (VOCAnnotationTransform_init None false)
              two_objects 500 375 _ eq_refl) as [Hlen _].
  exact Hlen.
Defined.

(** The loop over two runs of objects is the loop over the first, continued
    on the second with the rows gathered so far. *)
Lemma call_loop_app (self : VOCAnnotationTransform) (W H : Z)
    (l1 l2 : list Element) (res : list (list num)) :
  call_loop self (l1 ++ l2) W H res
  = (r <- call_loop self l1 W H res ;; call_loop self l2 W H r).
Proof.
  revert res. induction l1 as [| obj l1 IH]; intros res; [reflexivity |].
  cbn [app call_loop].
  destruct (is_difficult obj) as [d |]; cbn [bind]; [| reflexivity].
  destruct (negb (keep_difficult self) && d); [apply IH |].
  destruct (object_row self obj W H); cbn [bind]; [apply IH | reflexivity].
Qed.

(** Objects flagged difficult are skipped before anything else of them is
    read: without [keep_difficult], an annotation all of whose objects are
    flagged 1 gives the empty list, whatever their names and boxes and
    whatever the width and height, zero included. *)
Theorem difficult_objects_not_inspected (self : VOCAnnotationTransform)
    (target : Element) (W H : Z) :
  keep_difficult self = false ->
  Forall (fun obj => is_difficult obj = Ok true) (iter "object" target) ->
  VOCAnnotationTransform_call self target W H = Ok [].
Proof.
  intros Hk Hall. unfold VOCAnnotationTransform_call.
  generalize (@nil (list num)) as res.
  induction Hall as [| obj rest Hd Hrest IH]; intros res; [reflexivity |].
  cbn [call_loop]. rewrite Hd, Hk. cbn [bind negb andb]. apply IH.
Qed.

Lemma difficult_objects_not_inspected_witness :
  VOCAnnotationTransform_call (VOCAnnotationTransform_init None false)
    (voc_annotation [odd_difficult_object]) 0 0 = Ok [] /\
  object_row (VOCAnnotationTransform_init None false) odd_difficult_object 1 1
  = Raise AttributeError.
Proof.
  split.
  - apply (difficult_objects_not_inspected (VOCAnnotationTransform_init None false)
             (voc_annotation [odd_difficult_object]) 0 0).
    + reflexivity.
    + repeat constructor.
  - reflexivity.
Defined.

(** With a readable box and non-zero dimensions, building the row of an
    object fails with [KeyError] exactly when the object has a name whose
    lower-cased, stripped form is not a key of the vocabulary. *)
Theorem unknown_class_KeyError (self : VOCAnnotationTransform) (obj : Element)
    (a b c d W H : Z) :
  W <> 0 -> H <> 0 -> xml_box obj a b c d ->
  (object_row self obj W H = Raise KeyError <->
   exists nm, find_text "name" obj = Ok (Some nm) /\
              class_to_ind self !! strip (lower nm) = None).
Proof.
  intros HW HH Hbox. unfold object_row.
  destruct (find_text "name" obj) as [[nm |] | e] eqn:Hname; cbn [bind].
  - rewrite (scaled_pts_value obj a b c d W H HW HH Hbox). cbn [bind].
    destruct (class_to_ind self !! strip (lower nm)) as [l |] eqn:Hl; cbn [bind].
    + split; [discriminate |]. intros (nm' & Hnm' & Hnone).
      injection Hnm' as <-. congruence.
    + split; [| reflexivity]. intros _. exists nm. split; [reflexivity | exact Hl].
  - split; [discriminate |]. intros (nm' & Hnm' & _). discriminate.
  - split.
    + intros He. exfalso. unfold find_text in Hname.
      destruct (find "name" obj); [discriminate |].
      injection Hname as <-. discriminate.
    + intros (nm' & Hnm' & _). discriminate.
Qed.

Lemma unknown_class_KeyError_witness :
  object_row (VOCAnnotationTransform_init None false) unicorn_object 500 375
  = Raise KeyError.
Proof.
  apply (unknown_class_KeyError (VOCAnnotationTransform_init None false)
           unicorn_object 1 1 5 5 500 375).
  - lia.
  - lia.
  - repeat split; reflexivity.
  - exists "unicorn". split; reflexivity.
Defined.

(** No partial result: when the objects before some object are valid and
    that object is kept and its row cannot be built, the whole call fails
    with the error of that object, and the rows already built are lost. *)
Theorem first_failure_aborts (self : VOCAnnotationTransform) (target : Element)
    (W H : Z) (good rest : list Element) (bad : Element) (d : bool) (e : exn) :
  W <> 0 -> H <> 0 ->
  iter "object" target = good ++ bad :: rest ->
  Forall (valid_object self) good ->
  is_difficult bad = Ok d ->
  negb (keep_difficult self) && d = false ->
  object_row self bad W H = Raise e ->
  VOCAnnotationTransform_call self target W H = Raise e.
Proof.
  intros HW HH Hiter Hgood Hd Hkept Hrow.
  unfold VOCAnnotationTransform_call. rewrite Hiter, call_loop_app.
  destruct (call_loop_rows self W H good [] HW HH Hgood) as (rows & -> & _).
  cbn [bind call_loop]. rewrite Hd. cbn [bind]. rewrite Hkept, Hrow. reflexivity.
Qed.

Lemma first_failure_aborts_witness :
  VOCAnnotationTransform_call (VOCAnnotationTransform_init None false)
    (voc_annotation [dog_object; unicorn_object; dog_object]) 500 375
  = Raise KeyError.
Proof.
  apply (first_failure_aborts (VOCAnnotationTransform_init None false)
           (voc_annotation [dog_object; unicorn_object; dog_object]) 500 375
           [dog_object] [dog_object] unicorn_object false KeyError).
  - lia.
  - lia.
  - reflexivity.
  - repeat constructor.
    + exists false. reflexivity.
    + exists 97, 14, 439, 333. repeat split; reflexivity.
    + exists 11, "dog". split; reflexivity.
  - reflexivity.
  - reflexivity.
  - reflexivity.
Defined.

(** ** The augmentation block *)

(** When the annotation transform keeps no object and an augmentation
    transform is set, [pull_item] fails with [IndexError] on the column
    selection of the empty array; the augmentation is not called. *)
Theorem no_kept_object_with_augmentation (w : World) (self : VOCDetection)
    (index : Z) (img_id : string * string) (anno : Element) (raw : ndarray3)
    (xf : VOCAnnotationTransform) (t : augmentation) :
  getitem (ids self) index = Ok img_id ->
  ET_parse w (percent (_annopath self) [fst img_id; snd img_id]) = Ok anno ->
  image_files w !! percent (_imgpath self) [fst img_id; snd img_id] = Some raw ->
  voc_target_transform self = Some xf ->
  voc_transform self = Some t ->
  VOCAnnotationTransform_call xf anno (Z.of_nat (snd (fst (shape raw))))
    (Z.of_nat (fst (fst (shape raw)))) = Ok [] ->
  VOCDetection_pull_item w self index = Raise IndexError /\
  VOCDetection_getitem w self index = Raise IndexError.
Proof.
  intros Hid Hparse Himg Hxf Ht Hcall.
  assert (Hp : VOCDetection_pull_item w self index = Raise IndexError).
  { unfold VOCDetection_pull_item, imread_shape.
    rewrite Hid. cbn [bind]. rewrite Hparse. cbn [bind]. rewrite Himg. cbn [bind].
    destruct (shape raw) as [[H W] C]. cbn [fst snd] in Hcall.
    rewrite Hxf, Hcall. cbn [bind]. rewrite Ht. reflexivity. }
  split; [exact Hp |]. unfold VOCDetection_getitem. rewrite Hp. reflexivity.
Qed.

Lemma no_kept_object_with_augmentation_witness :
  VOCDetection_getitem difficult_world (demo_voc (Some identity_augmentation)) 0
  = Raise IndexError.
Proof.
  destruct (no_kept_object_with_augmentation difficult_world
              (demo_voc (Some identity_augmentation)) 0
              ("/voc/VOC2007", "000001") (voc_annotation [odd_difficult_object])
              demo_image (VOCAnnotationTransform_init None false)
              identity_augmentation) as [_ Hget].
  - reflexivity.
  - reflexivity.
  - reflexivity.
  - reflexivity.
  - reflexivity.
  - reflexivity.
  - exact Hget.
Defined.

Lemma rejoin_row (r : list Q) :
  List.length r = 5%nat -> firstn 4 r ++ [nth 4 r 0%Q] = r.
Proof.
  intros Hr. do 5 (destruct r as [| ? r]; [discriminate Hr |]).
  destruct r; [reflexivity | discriminate Hr].
Qed.

(** Splitting a non-empty target of five-column rows into boxes and labels
    and joining them again gives the target back as floats: an augmentation
    that hands boxes and labels back unchanged leaves the target numerically
    as it was, the class index now being a float. *)
Theorem unchanged_boxes_roundtrip (t : augmentation) (img img' rgb : ndarray3)
    (rows : list (list num)) :
  rows <> [] ->
  Forall (fun r => List.length r = 5%nat) rows ->
  (forall boxes labels, boxes_labels rows = Ok (boxes, labels) ->
                        t img boxes labels = Ok (img', boxes, labels)) ->
  take_210 img' = Ok rgb ->
  augment t img (boxes_labels rows) = Ok (rgb, map (map to_Q) rows).
Proof.
  intros Hne Hfive Hsame Hrgb. unfold augment.
  assert (Hbl : boxes_labels rows
                = Ok (map (fun r => firstn 4 (map to_Q r)) rows,
                      map (fun r => nth 4 (map to_Q r) 0%Q) rows)).
  { destruct rows; [congruence | reflexivity]. }
  rewrite Hbl. cbn [bind fst snd]. rewrite (Hsame _ _ Hbl). cbn [bind].
  rewrite Hrgb. cbn [bind]. unfold hstack. rewrite !length_map, Nat.eqb_refl.
  cbn [bind]. do 2 f_equal.
  clear Hne Hsame Hbl. induction Hfive as [| r rest Hr Hrest IH]; [reflexivity |].
  cbn [map combine fst snd]. rewrite IH. f_equal.
  apply rejoin_row. rewrite length_map. exact Hr.
Qed.

Lemma unchanged_boxes_roundtrip_witness :
  exists rgb,
    augment identity_augmentation demo_image
      (boxes_labels [[PyFloat (1 # 2); PyFloat (1 # 4); PyFloat 1; PyFloat 1; PyInt 11]])
    = Ok (rgb, [[(1 # 2)%Q; (1 # 4)%Q; 1%Q; 1%Q; 11%Q]]).
Proof.
  eexists.
  apply (unchanged_boxes_roundtrip identity_augmentation demo_image demo_image _
           [[PyFloat (1 # 2); PyFloat (1 # 4); PyFloat 1; PyFloat 1; PyInt 11]]).
  - discriminate.
  - repeat constructor.
  - intros boxes labels _. reflexivity.
  - reflexivity.
Defined.

(** ** Normalised and pixel annotations of one sample *)

Lemma Forall2_common {A B C} (P : A -> B -> Prop) (Q : A -> C -> Prop)
    (l : list A) (a : list B) (b : list C) :
  Forall2 P l a -> Forall2 Q l b ->
  Forall2 (fun x y => exists o, P o x /\ Q o y) a b.
Proof.
  intros HP. revert b. induction HP as [| o x l a Hox HP IH]; intros b HQ.
  - inversion HQ. constructor.
  - inversion HQ as [| o' y l' b' Hoy HQ']; subst.
    constructor; [exists o; split; assumption | apply IH; exact HQ'].
Qed.

(** For a sample with a valid annotation, retrieved without augmentation:
    [pull_item] reports the stored image's height and width and hands back
    one row per kept object, [pull_anno] hands back as many rows, and row by
    row the class index is the same while each coordinate of [pull_item] is
    the coordinate of [pull_anno] divided by the width (positions 0 and 2)
    or the height (positions 1 and 3). *)
Theorem item_is_scaled_annotation (w : World) (self : VOCDetection) (index : Z)
    (img_id : string * string) (anno : Element) (raw : ndarray3)
    (H W C : nat) (xf : VOCAnnotationTransform) :
  getitem (ids self) index = Ok img_id ->
  ET_parse w (percent (_annopath self) [fst img_id; snd img_id]) = Ok anno ->
  image_files w !! percent (_imgpath self) [fst img_id; snd img_id] = Some raw ->
  shape raw = (H, W, C) -> (0 < H)%nat -> (0 < W)%nat ->
  voc_target_transform self = Some xf ->
  voc_transform self = None ->
  valid_annotation xf anno ->
  exists scaled pixel,
    VOCDetection_pull_item w self index
    = Ok (permute_201 raw, TRows scaled, Z.of_nat H, Z.of_nat W) /\
    VOCDetection_pull_anno w self index = Ok (snd img_id, pixel) /\
    Forall2 (fun rs rp =>
               exists x0 y0 x1 y1 c : Z,
                 rp = [ PyFloat (inject_Z x0); PyFloat (inject_Z y0);
                        PyFloat (inject_Z x1); PyFloat (inject_Z y1); PyInt c ] /\
                 rs = [ PyFloat (Qred (inject_Z x0 / inject_Z (Z.of_nat W)));
                        PyFloat (Qred (inject_Z y0 / inject_Z (Z.of_nat H)));
                        PyFloat (Qred (inject_Z x1 / inject_Z (Z.of_nat W)));
                        PyFloat (Qred (inject_Z y1 / inject_Z (Z.of_nat H)));
                        PyInt c ])
            scaled pixel.
Proof.
  intros Hid Hparse Himg Hshape HH HW Hxf Hnone Hvalid.
  assert (HWz : Z.of_nat W <> 0) by lia.
  assert (HHz : Z.of_nat H <> 0) by lia.
  assert (H1z : 1 <> 0) by lia.
  destruct (call_loop_rows xf (Z.of_nat W) (Z.of_nat H) (iter "object" anno) []
              HWz HHz Hvalid) as (scaled & Hs & Hscaled).
  destruct (call_loop_rows xf 1 1 (iter "object" anno) [] H1z H1z Hvalid)
    as (pixel & Hp & Hpixel).
  cbn [app] in Hs, Hp. exists scaled, pixel. split; [| split].
  - unfold VOCDetection_pull_item, imread_shape.
    rewrite Hid. cbn [bind]. rewrite Hparse. cbn [bind]. rewrite Himg. cbn [bind].
    rewrite Hshape, Hxf. unfold VOCAnnotationTransform_call. rewrite Hs.
    cbn [bind]. rewrite Hnone. reflexivity.
  - unfold VOCDetection_pull_anno. rewrite Hid. cbn [bind]. rewrite Hparse.
    cbn [bind]. rewrite Hxf. unfold VOCAnnotationTransform_call. rewrite Hp.
    reflexivity.
  - eapply Forall2_impl; [exact (Forall2_common _ _ _ _ _ Hscaled Hpixel) |].
    intros rs rp (obj & [Hobj Hrs] & [_ Hrp]).
    destruct Hobj as (_ & (a & b & c & d & Hbox) & (l & Hl)).
    rewrite (object_row_value xf obj a b c d l _ _ HWz HHz Hbox Hl) in Hrs.
    rewrite (object_row_value xf obj a b c d l 1 1 H1z H1z Hbox Hl) in Hrp.
    rewrite !quotient_one in Hrp. injection Hrs as <-. injection Hrp as <-.
    exists (a - 1), (b - 1), (c - 1), (d - 1), l. split; reflexivity.
Qed.

Lemma item_is_scaled_annotation_witness :
  exists scaled pixel,
    VOCDetection_pull_item demo_world (demo_voc None) 0
    = Ok (permute_201 demo_image, TRows scaled, 2, 1) /\
    VOCDetection_pull_anno demo_world (demo_voc None) 0 = Ok ("000001", pixel).
Proof.
  destruct (item_is_scaled_annotation demo_world (demo_voc None) 0
              ("/voc/VOC2007", "000001") two_objects demo_image 2 1 3
              (VOCAnnotationTransform_init None false))
    as (scaled & pixel & Hitem & Hanno & _).
  - reflexivity.
  - reflexivity.
  - reflexivity.
  - reflexivity.
  - lia.
  - lia.
  - reflexivity.
  - reflexivity.
  - apply two_objects_valid.
  - exists scaled, pixel. split; assumption.
Defined.

(** ** What the text datasets return *)

Lemma unit_row_shape (temp : list Z) (W H : Z) (row : list num) :
  unit_row temp W H = Ok row ->
  exists x0 y0 x1 y1, is_target_row row x0 y0 x1 y1 0.
Proof.
  unfold unit_row. intros Hrow.
  repeat match type of Hrow with
         | bind (truediv ?a ?b) _ = Ok _ =>
             let E := fresh "E" in
             destruct (truediv a b) eqn:E; cbn [bind] in Hrow;
             [apply truediv_float in E; destruct E as [? ->] | discriminate Hrow]
         | bind ?c _ = Ok _ =>
             destruct c; cbn [bind] in Hrow; [| discriminate Hrow]
         end.
  injection Hrow as <-. do 4 eexists. reflexivity.
Qed.

(** What [ImgDataset.__getitem__] has computed before the transform block
    depends on the world, the root, the lines and the index only. *)
Lemma ImgDataset_prepare_plain (w : World) (o : ImgDataset) (idx : Z)
    (img : ndarray3) (tg : option (list (list Q))) (h wd : Z)
    (t1 : list (list num)) (text : string) :
  ImgDataset_prepare w o idx = Ok (img, tg, h, wd, t1, text) ->
  exists raw x0 y0 x1 y1,
    ImgDataset_prepare w
      {| img_root := img_root o; img_data := img_data o; img_transform := None;
         img_target_transform := None; img_name := "ocr" |} idx
    = Ok (raw, None, h, wd, t1, text) /\
    h = Z.of_nat (fst (fst (shape raw))) /\
    wd = Z.of_nat (snd (fst (shape raw))) /\
    exists row, t1 = [row] /\ is_target_row row x0 y0 x1 y1 0.
Proof.
  unfold ImgDataset_prepare, imread_shape. cbn [img_root img_data img_transform].
  intros Hp.
  destruct (getitem (img_data o) idx) as [line |]; cbn [bind] in *; [| discriminate].
  destruct (getitem (split TAB (rstrip line)) 0) as [f0 |]; cbn [bind] in *;
    [| discriminate].
  destruct (image_files w !! _) as [raw |]; cbn [bind] in *; [| discriminate].
  destruct (shape raw) as [[H W] C] eqn:Hs.
  destruct (mapM int_of_string _) as [temp |]; cbn [bind] in *; [| discriminate].
  destruct (unit_row temp _ _) as [row |] eqn:Hrow; cbn [bind] in *; [| discriminate].
  destruct (augment_opt (img_transform o) raw [row]) as [it |]; cbn [bind] in Hp;
    [| discriminate].
  cbn [augment_opt bind].
  destruct (getitem (split TAB (rstrip line)) 1) as [f1 |]; cbn [bind] in *;
    [| discriminate].
  injection Hp as _ _ <- <- <- <-.
  apply unit_row_shape in Hrow. destruct Hrow as (x0 & y0 & x1 & y1 & Hrow).
  exists raw, x0, y0, x1, y1. rewrite Hs. cbn [fst snd].
  split; [reflexivity |]. split; [reflexivity |]. split; [reflexivity |].
  exists row. split; [reflexivity | exact Hrow].
Qed.

Lemma ImgDataset_getitem_inv (w : World) (o : ImgDataset) (idx : Z) (s : sample) :
  ImgDataset_getitem w o idx = Ok s ->
  exists img tg t1 text r0,
    ImgDataset_prepare w o idx = Ok (img, tg, s_height s, s_width s, t1, text) /\
    getitem t1 0 = Ok r0 /\ s_rois s = slice 0 4 r0.
Proof.
  unfold ImgDataset_getitem. intros Hget.
  destruct (ImgDataset_prepare w o idx)
    as [[[[[[img tg] h] wd] t1] text] |]; cbn [bind] in Hget; [| discriminate].
  repeat match type of Hget with
         | bind ?c _ = Ok _ =>
             let E := fresh "E" in
             destruct c eqn:E; cbn [bind] in Hget; [| discriminate Hget]
         end.
  injection Hget as <-. cbn [s_height s_width s_rois].
  eexists _, _, _, _, _. split; [reflexivity |]. split; [eassumption | reflexivity].
Qed.

(** The region of interest, the height and the width that
    [ImgDataset.__getitem__] returns are those of the stored line and the
    stored image: two datasets over the same root and lines return the same
    three values whatever their augmentation and text transforms do (the
    returned image and target may differ), and the region of interest is
    made of four floats. *)
Theorem rois_ignore_augmentation (w : World) (o1 o2 : ImgDataset) (idx : Z)
    (s1 s2 : sample) :
  img_root o1 = img_root o2 -> img_data o1 = img_data o2 ->
  ImgDataset_getitem w o1 idx = Ok s1 ->
  ImgDataset_getitem w o2 idx = Ok s2 ->
  s_rois s1 = s_rois s2 /\ s_height s1 = s_height s2 /\ s_width s1 = s_width s2 /\
  (exists x0 y0 x1 y1,
      s_rois s1 = [PyFloat x0; PyFloat y0; PyFloat x1; PyFloat y1]) /\
  (exists raw, ImgDataset_pull_image w o1 idx = Ok (Some raw) /\
               s_height s1 = Z.of_nat (fst (fst (shape raw))) /\
               s_width s1 = Z.of_nat (snd (fst (shape raw)))).
Proof.
  intros Hroot Hdata H1 H2.
  apply ImgDataset_getitem_inv in H1, H2.
  destruct H1 as (img1 & tg1 & t1 & text1 & r1 & Hp1 & Hr1 & Hrois1).
  destruct H2 as (img2 & tg2 & t2 & text2 & r2 & Hp2 & Hr2 & Hrois2).
  pose proof Hp1 as Hprep1.
  apply ImgDataset_prepare_plain in Hp1, Hp2.
  destruct Hp1 as (raw1 & x0 & y0 & x1 & y1 & Hp1 & Hh1 & Hw1 & row1 & Ht1 & Hrow1).
  destruct Hp2 as (raw2 & _ & _ & _ & _ & Hp2 & _).
  rewrite <- Hroot, <- Hdata in Hp2. rewrite Hp1 in Hp2.
  injection Hp2 as _ Hh Hw Ht _.
  subst t1. rewrite <- Ht in Hr2. rewrite Hr1 in Hr2. injection Hr2 as <-.
  cbn in Hr1. injection Hr1 as <-. rewrite Hrow1 in Hrois1.
  split; [congruence |]. split; [exact Hh |]. split; [exact Hw |]. split.
  - exists x0, y0, x1, y1. rewrite Hrois1. reflexivity.
  - exists raw1. split; [| split; assumption].
    clear - Hprep1 Hp1. unfold ImgDataset_pull_image, imread.
    unfold ImgDataset_prepare, imread_shape in Hp1.
    cbn [img_root img_data img_transform] in Hp1.
    destruct (getitem (img_data o1) idx) as [line |]; cbn [bind] in *;
      [| discriminate].
    destruct (getitem (split TAB (rstrip line)) 0) as [f0 |]; cbn [bind] in *;
      [| discriminate].
    destruct (image_files w !! _) as [raw |]; cbn [bind] in *; [| discriminate].
    destruct (shape raw) as [[H W] C].
    repeat match type of Hp1 with
           | bind ?c _ = Ok _ =>
               destruct c; cbn [bind augment_opt] in Hp1; [| discriminate Hp1]
           end.
    injection Hp1 as <- _ _ _ _. reflexivity.
Qed.

Lemma rois_ignore_augmentation_witness :
  exists s1 s2,
    ImgDataset_getitem demo_world
      (demo_ocr (Some identity_augmentation) (Some length_transform)) 0 = Ok s1 /\
    ImgDataset_getitem demo_world
      (demo_ocr (Some (fun img boxes labels => Ok (demo_image, [], [])))
                (Some length_transform)) 0 = Ok s2 /\
    s_rois s1 = s_rois s2 /\ s_target s1 <> s_target s2.
Proof.
  eexists _, _. split; [reflexivity |]. split; [reflexivity |].
  split; [| discriminate].
  eapply (rois_ignore_augmentation demo_world
            (demo_ocr (Some identity_augmentation) (Some length_transform))
            (demo_ocr (Some (fun img boxes labels => Ok (demo_image, [], [])))
                      (Some length_transform)) 0);
    reflexivity.
Defined.

(** Neither text dataset returns a sample when it was built without an
    augmentation transform: the return statement reads [target], which only
    the transform block assigns.  [VOCDetection] has no such restriction. *)
Theorem text_datasets_need_augmentation (w : World) (o : ImgDataset)
    (p : LPDataset) (idx : Z) :
  img_transform o = None -> lp_transform p = None ->
  (forall s, ImgDataset_getitem w o idx <> Ok s) /\
  (forall s, LPDataset_getitem w p idx <> Ok s).
Proof.
  intros Ho Hp. split; intros s Hget.
  - exact (ImgDataset_needs_augmentation w o idx s Hget Ho).
  - unfold LPDataset_getitem in Hget. rewrite Hp in Hget.
    bind_inversion Hget. discriminate Hget.
Qed.

Lemma text_datasets_need_augmentation_witness :
  ImgDataset_getitem demo_world (demo_ocr None (Some length_transform)) 0
  = Raise UnboundLocalError /\
  LPDataset_getitem demo_world (demo_plates None (Some length_transform)) 0
  = Raise UnboundLocalError /\
  is_ok (VOCDetection_getitem demo_world (demo_voc None) 0) = true.
Proof.
  destruct (text_datasets_need_augmentation demo_world
              (demo_ocr None (Some length_transform))
              (demo_plates None (Some length_transform)) 0 eq_refl eq_refl)
    as [_ _].
  repeat split; vm_compute; reflexivity.
Defined.

Lemma getitem_In {A} (l : list A) (i : Z) (x : A) :
  getitem l i = Ok x -> In x l.
Proof.
  unfold getitem. destruct (_ || _); [discriminate |].
  destruct (nth_error l _) eqn:E; [| discriminate].
  intros Hx. injection Hx as <-. eapply nth_error_In. exact E.
Qed.

Lemma mapM_getitem_In {A} (l : list A) (is_ : list Z) (xs : list A) :
  mapM (getitem l) is_ = Ok xs -> Forall (fun x => In x l) xs.
Proof.
  revert xs. induction is_ as [| i is_ IH]; intros xs Hm.
  - injection Hm as <-. constructor.
  - cbn [mapM] in Hm.
    destruct (getitem l i) eqn:E; cbn [bind] in Hm; [| discriminate].
    destruct (mapM (getitem l) is_); cbn [bind] in Hm; [| discriminate].
    injection Hm as <-. constructor; [eapply getitem_In; exact E | apply IH; reflexivity].
Qed.

(** The text that [LPDataset.__getitem__] hands to the text-target transform
    is one entry of the province table, one entry of the letter table and
    then entries of the alphanumeric table, in this order; the returned text
    and text length are items 0 and 1 of what the transform gave for it. *)
Theorem plate_text_from_tables (w : World) (p : LPDataset) (idx : Z)
    (f : text_transform) (s : sample) :
  lp_target_transform p = Some f ->
  LPDataset_getitem w p idx = Ok s ->
  exists c0 c1 cs d,
    In c0 (provinces p) /\ In c1 (alphabets p) /\
    Forall (fun c => In c (ads p)) cs /\
    f (join ([c0; c1] ++ cs)) = Ok d /\
    getitem d 0 = Ok (s_text s) /\ getitem d 1 = Ok (s_text_length s).
Proof.
  intros Hf Hget. unfold LPDataset_getitem in Hget. rewrite Hf in Hget.
  bind_inversion Hget. injection Hget as <-. cbn [s_text s_text_length].
  eexists _, _, _, _.
  split; [eapply getitem_In; eassumption |].
  split; [eapply getitem_In; eassumption |].
  split; [eapply mapM_getitem_In; eassumption |].
  split; [eassumption |]. split; eassumption.
Qed.

Lemma plate_text_from_tables_witness :
  exists s,
    LPDataset_getitem demo_world
      (demo_plates (Some identity_augmentation) (Some length_transform)) 0 = Ok s /\
    s_text s = OStr "皖AY339S".
Proof.
  eexists. split; [vm_compute; reflexivity |].
  destruct (plate_text_from_tables demo_world
              (demo_plates (Some identity_augmentation) (Some length_transform)) 0
              length_transform _ eq_refl eq_refl) as (c0 & c1 & cs & d & _).
  reflexivity.
Defined.

(** ** Paths *)

Lemma append_nonempty (s t : string) :
  t <> "" -> (String.length (s +:+ t) =? 0)%nat = false.
Proof.
  intros Ht. destruct s; [| reflexivity].
  destruct t; [congruence | reflexivity].
Qed.

Lemma endswith_append (c : ascii) (s t : string) :
  t <> "" -> endswith c (s +:+ t) = endswith c t.
Proof.
  intros Ht. induction s as [| d s IH]; [reflexivity |].
  change (String d s +:+ t) with (String d (s +:+ t)). rewrite <- IH.
  destruct (s +:+ t) eqn:E; [| reflexivity].
  destruct s; [change (t = "") in E; congruence | discriminate E].
Qed.

Lemma endswith_VOC (year : string) :
  endswith "/" year = false -> endswith "/" ("VOC" +:+ year) = false.
Proof.
  intros Hy. destruct year as [| c year]; [reflexivity |].
  rewrite endswith_append by discriminate. exact Hy.
Qed.

Lemma join2_plain (path b : string) :
  path <> "" -> endswith "/" path = false -> startswith "/" b = false ->
  join2 path b = path +:+ "/" +:+ b.
Proof.
  intros Hp He Hb. unfold join2. rewrite Hb, He.
  destruct path; [congruence | reflexivity].
Qed.

Lemma append_assoc (a b c : string) : (a +:+ b) +:+ c = a +:+ (b +:+ c).
Proof.
  induction a as [| x a IH]; [reflexivity |].
  change (String x ((a +:+ b) +:+ c) = String x (a +:+ (b +:+ c))).
  f_equal. exact IH.
Qed.

(** The files of a sample.  For a root that is not empty, a year that does
    not end in a slash and a split name that does not start with one, the
    manifest is [<root>/VOC<year>/ImageSets/Main/<name>.txt], where the slash
    after the root is left out if the root already ends in one; the
    annotation and the image of an identifier [(rootpath, id)] are
    [<rootpath>/Annotations/<id>.xml] and [<rootpath>/JPEGImages/<id>.jpg];
    and [VOC_ROOT] is the absolute path of its second component whatever
    [HOME] is. *)
Theorem voc_file_layout (w : World) (root year name : string)
    (image_sets : list (string * string)) (transform : option augmentation)
    (target_transform : option VOCAnnotationTransform) (dataset_name : string)
    (ds : VOCDetection) :
  root <> "" -> endswith "/" year = false -> startswith "/" name = false ->
  VOCDetection_init w root image_sets transform target_transform dataset_name
  = Ok ds ->
  let sep := if endswith "/" root then "" else "/" in
  rootpath_of root year = root +:+ sep +:+ "VOC" +:+ year /\
  manifest_of (rootpath_of root year) name
  = root +:+ sep +:+ "VOC" +:+ year +:+ "/ImageSets/Main/" +:+ name +:+ ".txt" /\
  (forall rootpath id,
      percent (_annopath ds) [rootpath; id]
      = rootpath +:+ "/Annotations/" +:+ id +:+ ".xml" /\
      percent (_imgpath ds) [rootpath; id]
      = rootpath +:+ "/JPEGImages/" +:+ id +:+ ".jpg") /\
  (forall HOME,
      VOC_ROOT HOME
      = "/media/chenjun/data/1_deeplearning/faster-rcnn.pytorch/data/VOCdevkit2007/").
Proof.
  intros Hroot Hyear Hname Hinit. cbn zeta.
  assert (Hrp : rootpath_of root year
                = root +:+ (if endswith "/" root then "" else "/") +:+ "VOC" +:+ year).
  { unfold rootpath_of, osp_join. cbn [fold_left]. unfold join2.
    cbn [startswith String.append]. change (Ascii.eqb "/" "V") with false. cbn iota.
    destruct root as [| c root]; [congruence |]. cbn [String.length Nat.eqb orb].
    destruct (endswith "/" (String c root)); reflexivity. }
  split; [exact Hrp |]. split.
  - assert (Hne : rootpath_of root year <> "").
    { rewrite Hrp. destruct root; [congruence | discriminate]. }
    assert (Hend : endswith "/" (rootpath_of root year) = false).
    { rewrite Hrp. rewrite endswith_append.
      - destruct (endswith "/" root); cbn [String.append];
          [apply endswith_VOC; exact Hyear |].
        change ("/" +:+ "VOC" +:+ year) with (String "/" ("VOC" +:+ year)).
        change (String "/" ("VOC" +:+ year)) with ("/" +:+ ("VOC" +:+ year)).
        rewrite endswith_append by discriminate. apply endswith_VOC. exact Hyear.
      - destruct (endswith "/" root); discriminate. }
    unfold manifest_of, osp_join. cbn [fold_left].
    rewrite (join2_plain (rootpath_of root year) "ImageSets" Hne Hend eq_refl).
    rewrite (join2_plain _ "Main").
    + rewrite (join2_plain _ (name +:+ ".txt")).
      * rewrite Hrp, !append_assoc. reflexivity.
      * destruct (rootpath_of root year); [congruence | discriminate].
      * rewrite !endswith_append by discriminate. reflexivity.
      * destruct name as [| c name]; [reflexivity | exact Hname].
    + destruct (rootpath_of root year); [congruence | discriminate].
    + rewrite !endswith_append by discriminate. reflexivity.
    + reflexivity.
  - split; [| intros HOME; reflexivity].
    intros rootpath id. unfold VOCDetection_init in Hinit.
    destruct (read_ids w root image_sets []); cbn [bind] in Hinit; [| discriminate].
    injection Hinit as <-. cbn [_annopath _imgpath]. split; reflexivity.
Qed.

Lemma voc_file_layout_witness :
  manifest_of (rootpath_of "/voc" "2007") "trainval"
  = "/voc/VOC2007/ImageSets/Main/trainval.txt" /\
  manifest_of (rootpath_of "/voc/" "2007") "trainval"
  = "/voc/VOC2007/ImageSets/Main/trainval.txt".
Proof.
  split.
  - destruct (voc_file_layout demo_world "/voc" "2007" "trainval"
                [("2007", "trainval")] None
                (Some (VOCAnnotationTransform_init None false)) "VOC0712"
                (demo_voc None))
      as (_ & Hm & _).
    + discriminate.
    + reflexivity.
    + reflexivity.
    + reflexivity.
    + rewrite Hm. reflexivity.
  - reflexivity.
Defined.

(** ** Malformed input *)

(** The [difficult] flag is read for every object, also with
    [keep_difficult]: after valid objects, an object without a [difficult]
    child makes the call fail with [AttributeError], one whose child has no
    text with [TypeError], and one whose text is not an integer with
    [ValueError]. *)
Theorem difficult_flag_required (self : VOCAnnotationTransform)
    (target : Element) (W H : Z) (good rest : list Element) (bad : Element) :
  W <> 0 -> H <> 0 ->
  iter "object" target = good ++ bad :: rest ->
  Forall (valid_object self) good ->
  (find "difficult" bad = None ->
   VOCAnnotationTransform_call self target W H = Raise AttributeError) /\
  (forall c, find "difficult" bad = Some c -> text c = None ->
             VOCAnnotationTransform_call self target W H = Raise TypeError) /\
  (forall c s, find "difficult" bad = Some c -> text c = Some s ->
               int_of_string s = Raise ValueError ->
               VOCAnnotationTransform_call self target W H = Raise ValueError).
Proof.
  intros HW HH Hiter Hgood.
  assert (Hfail : forall e, is_difficult bad = Raise e ->
                            VOCAnnotationTransform_call self target W H = Raise e).
  { intros e He. unfold VOCAnnotationTransform_call. rewrite Hiter, call_loop_app.
    destruct (call_loop_rows self W H good [] HW HH Hgood) as (rows & -> & _).
    cbn [bind call_loop]. rewrite He. reflexivity. }
  unfold is_difficult, int_field, find_text in Hfail.
  split; [| split].
  - intros Hnone. apply Hfail. rewrite Hnone. reflexivity.
  - intros c Hc Ht. apply Hfail. rewrite Hc, Ht. reflexivity.
  - intros c s Hc Ht Hs. apply Hfail. rewrite Hc, Ht. cbn [bind int_of_text].
    rewrite Hs. reflexivity.
Qed.

Lemma difficult_flag_required_witness :
  VOCAnnotationTransform_call (VOCAnnotationTransform_init None true)
    (voc_annotation [dog_object; unflagged_object]) 500 375
  = Raise AttributeError.
Proof.
  destruct (difficult_flag_required (VOCAnnotationTransform_init None true)
              (voc_annotation [dog_object; unflagged_object]) 500 375
              [dog_object] [] unflagged_object) as (Hmissing & _).
  - lia.
  - lia.
  - reflexivity.
  - repeat constructor.
    + exists false. reflexivity.
    + exists 97, 14, 439, 333. repeat split; reflexivity.
    + exists 11, "dog". split; reflexivity.
  - apply Hmissing. reflexivity.
Defined.

(** A zero width or height makes the row of an object with a name and a
    readable box fail with [ZeroDivisionError], whether or not the class is
    in the vocabulary: the division comes before the lookup. *)
Theorem zero_dimension_raises (self : VOCAnnotationTransform) (obj : Element)
    (a b c d W H : Z) (nm : string) :
  W = 0 \/ H = 0 ->
  xml_box obj a b c d ->
  find_text "name" obj = Ok (Some nm) ->
  object_row self obj W H = Raise ZeroDivisionError.
Proof.
  intros Hzero (Ha & Hb & Hc & Hd) Hnm. unfold object_row.
  rewrite Hnm. cbn [bind].
  unfold enumerate, pts, range. cbn [List.length seq map combine mapM scaled_pt].
  rewrite Ha, Hb. cbn [bind].
  change (Z.of_nat 0 mod 2 =? 0) with true.
  change (Z.of_nat 1 mod 2 =? 0) with false. cbn iota.
  unfold truediv at 1. destruct (Z.eqb_spec W 0) as [-> | HW]; [reflexivity |].
  cbn [bind]. unfold truediv at 1. destruct (Z.eqb_spec H 0) as [-> | HH];
    [reflexivity | lia].
Qed.

Lemma zero_dimension_raises_witness :
  object_row (VOCAnnotationTransform_init None false) unicorn_object 500 0
  = Raise ZeroDivisionError.
Proof.
  apply (zero_dimension_raises (VOCAnnotationTransform_init None false)
           unicorn_object 1 1 5 5 500 0 "unicorn").
  - right. reflexivity.
  - repeat split; reflexivity.
  - reflexivity.
Defined.

Lemma unit_row_short (temp : list Z) (W H : Z) :
  W <> 0 -> H <> 0 -> (List.length temp < 4)%nat ->
  unit_row temp W H = Raise IndexError.
Proof.
  intros HW HH Hlen. unfold unit_row.
  destruct temp as [| t0 [| t1 [| t2 [| t3 temp]]]]; cbn in Hlen; try lia.
  - reflexivity.
  - change (getitem [t0] 0) with (Ok t0). cbn [bind].
    rewrite truediv_value by assumption. reflexivity.
  - change (getitem [t0; t1] 0) with (Ok t0).
    change (getitem [t0; t1] 1) with (Ok t1). cbn [bind].
    rewrite !truediv_value by assumption. reflexivity.
  - change (getitem [t0; t1; t2] 0) with (Ok t0).
    change (getitem [t0; t1; t2] 1) with (Ok t1).
    change (getitem [t0; t1; t2] 2) with (Ok t2). cbn [bind].
    rewrite !truediv_value by assumption. reflexivity.
Qed.

Lemma mapM_length {A B} (f : A -> result B) (l : list A) (ys : list B) :
  mapM f l = Ok ys -> List.length ys = List.length l.
Proof.
  revert ys. induction l as [| x l IH]; intros ys Hm.
  - injection Hm as <-. reflexivity.
  - cbn [mapM] in Hm. destruct (f x); cbn [bind] in Hm; [| discriminate].
    destruct (mapM f l); cbn [bind] in Hm; [| discriminate].
    injection Hm as <-. cbn. rewrite (IH _ eq_refl). reflexivity.
Qed.

(** A manifest line with fewer than six tab-separated fields, on a readable
    image, whose coordinate fields as far as present are integers, makes
    [ImgDataset.__getitem__] fail with [IndexError]. *)
Theorem short_line_IndexError (w : World) (o : ImgDataset) (idx : Z)
    (line f0 : string) (raw : ndarray3) (temp : list Z) :
  getitem (img_data o) idx = Ok line ->
  (List.length (split TAB (rstrip line)) < 6)%nat ->
  getitem (split TAB (rstrip line)) 0 = Ok f0 ->
  image_files w !! osp_join (img_root o) [f0] = Some raw ->
  (0 < fst (fst (shape raw)))%nat -> (0 < snd (fst (shape raw)))%nat ->
  mapM int_of_string (slice 2 6 (split TAB (rstrip line))) = Ok temp ->
  ImgDataset_getitem w o idx = Raise IndexError.
Proof.
  intros Hline Hshort Hf0 Himg HH HW Htemp.
  unfold ImgDataset_getitem, ImgDataset_prepare, imread_shape.
  rewrite Hline. cbn [bind]. rewrite Hf0. cbn [bind]. rewrite Himg. cbn [bind].
  destruct (shape raw) as [[H W] C]. cbn [fst snd] in HH, HW.
  rewrite Htemp. cbn [bind].
  rewrite unit_row_short; [reflexivity | lia | lia |].
  rewrite (mapM_length _ _ _ Htemp). unfold slice.
  rewrite length_firstn, length_skipn. lia.
Qed.

Lemma short_line_IndexError_witness :
  let o := {| img_root := "/ocr";
              img_data := ["img.jpg" +:+ String TAB "HELLO" +:+ String TAB "10"];
              img_transform := Some identity_augmentation;
              img_target_transform := Some length_transform;
              img_name := "ocr" |} in
  ImgDataset_getitem demo_world o 0 = Raise IndexError.
Proof.
  intros o.
  apply (short_line_IndexError demo_world o 0
           ("img.jpg" +:+ String TAB "HELLO" +:+ String TAB "10") "img.jpg"
           blank_image [10]).
  - reflexivity.
  - vm_compute. lia.
  - reflexivity.
  - reflexivity.
  - cbn. lia.
  - cbn. lia.
  - reflexivity.
Defined.
